(** * Extended numbers: a shallow embedding of [extended.h]

    [Extended<T>] pairs a primitive payload [m_value : T] with a [char]
    flag [m_flag] that is [0] for a finite value, [1] for positive
    infinity and [-1] for negative infinity.  The template parameter is
    rendered as a type class carrying the primitive operators the class
    body uses; the member functions are written in a small state and
    exception monad over the receiver, so that what a member function
    has done to [*this] by the time it throws stays visible. *)

From Stdlib Require Import ZArith Bool String Ascii List Lia DecimalString.
Import ListNotations.
Local Open Scope string_scope.
Local Open Scope Z_scope.

(** ** Streams *)

(** A [std::ostream] is the text written so far. *)
Definition ostream := string.

(** A [std::istream] is the text still to be read, with its failbit. *)
Record istream := mk_istream { is_buf : string; is_fail : bool }.

(** ** The primitive type [T] *)

(** The operators of [T] that [Extended<T>] uses.  Each binary operator
    stands for the C++ expression converted back to [T], as in
    [static_cast<T>(x + y)]; what the primitive does on overflow is
    inherited as it is.  The remainder and the shifts, which the class
    applies to whatever payloads it is given, are partial: [None] where
    C++ leaves the expression undefined (a zero divisor, a shift count
    outside the width). *)
Class Arithmetic (T : Type) := {
  zero : T;                                   (* static_cast<T>(0) *)
  one : T;                                    (* static_cast<T>(1) *)
  prim_eqb : T -> T -> bool;                  (* x == y *)
  prim_ltb : T -> T -> bool;                  (* x < y *)
  prim_neg : T -> T;                          (* -x *)
  prim_add : T -> T -> T;                     (* x + y *)
  prim_sub : T -> T -> T;                     (* x - y *)
  prim_mul : T -> T -> T;                     (* x * y *)
  prim_div : T -> T -> T;                     (* x / y *)
  prim_rem : T -> T -> option T;              (* x % y *)
  prim_not : T -> T;                          (* ~x *)
  prim_and : T -> T -> T;                     (* x & y *)
  prim_or : T -> T -> T;                      (* x | y *)
  prim_xor : T -> T -> T;                     (* x ^ y *)
  prim_shl : T -> T -> option T;              (* x << y *)
  prim_shr : T -> T -> option T;              (* x >> y *)
  prim_show : T -> string;                    (* os << x *)
  prim_read : istream -> T -> istream * T     (* is >> x *)
}.

(** [==] decides equality and [<] is a strict total order: true of every
    integer instantiation. *)
Class ArithmeticOrder (T : Type) {ops : Arithmetic T} : Prop := {
  prim_eqb_eq : forall x y : T, prim_eqb x y = true <-> x = y;
  prim_ltb_irrefl : forall x : T, prim_ltb x x = false;
  prim_ltb_trans : forall x y z : T,
    prim_ltb x y = true -> prim_ltb y z = true -> prim_ltb x z = true;
  prim_ltb_total : forall x y : T,
    prim_ltb x y = true \/ x = y \/ prim_ltb y x = true
}.

(** [static_cast<S>(x)] for [x : T]. *)
Class Cast (T S : Type) := prim_cast : T -> S.

(** The sign of a primitive value, as the tests [x < zero] and
    [x > zero] see it. *)
Definition prim_sign {T} {ops : Arithmetic T} (x : T) : Z :=
  if prim_ltb x zero then -1 else if prim_ltb zero x then 1 else 0.

(** ** infinite_error.h *)

Inductive infinite_error := mk_infinite_error (msg : string).

Definition what (e : infinite_error) : string :=
  match e with mk_infinite_error msg => msg end.

(** ** The class [Extended<T>] *)

(** [enum class INF : bool { POS = true, NEG = false }] *)
Inductive INF := POS | NEG.

Definition INF_eqb (a b : INF) : bool :=
  match a, b with
  | POS, POS | NEG, NEG => true
  | _, _ => false
  end.

Record Extended (T : Type) := mk_Extended { m_value : T; m_flag : Z }.
Arguments mk_Extended {T} _ _.
Arguments m_value {T} _.
Arguments m_flag {T} _.

Definition FINITE_FLAG : Z := 0.
Definition POS_INF_FLAG : Z := 1.
Definition NEG_INF_FLAG : Z := -1.

(** [static_cast<char>(z)], with [char] the signed 8-bit type. *)
Definition to_char (z : Z) : Z := (z + 128) mod 256 - 128.

(** The flag is one of the three constants.  Every constructor
    establishes this and every operation keeps it. *)
Definition wf {T} (e : Extended T) : Prop :=
  m_flag e = FINITE_FLAG \/ m_flag e = POS_INF_FLAG \/ m_flag e = NEG_INF_FLAG.

(** *** The monad of member functions *)

(** [Undefined]: the call evaluated a primitive expression that C++
    leaves undefined, so that the program has no result from there on
    (on a zero remainder divisor the build traps). *)
Inductive outcome (A : Type) :=
| Return (a : A)
| Raise (e : infinite_error)
| Undefined.
Arguments Return {A} _.
Arguments Raise {A} _.
Arguments Undefined {A}.

(** A member function takes the receiver and gives back what it
    returned or threw, together with the receiver as it then is. *)
Definition method (S A : Type) := S -> outcome A * S.

Definition run {S A} (m : method S A) (this : S) : outcome A * S := m this.

Definition ret {S A} (a : A) : method S A := fun s => (Return a, s).

Definition bind {S A B} (m : method S A) (k : A -> method S B) : method S B :=
  fun s => match m s with
           | (Return a, s') => k a s'
           | (Raise e, s') => (Raise e, s')
           | (Undefined, s') => (Undefined, s')
           end.

Definition throw {S A} (msg : string) : method S A :=
  fun s => (Raise (mk_infinite_error msg), s).

Definition undefined {S A} : method S A := fun s => (Undefined, s).

Definition this_ {S} : method S S := fun s => (Return s, s).

Declare Scope method_scope.
Delimit Scope method_scope with method.
Notation "x <- m ;; k" := (bind m (fun x => k))
  (at level 100, m at next level, right associativity) : method_scope.
Notation "m ;; k" := (bind m (fun _ => k))
  (at level 100, right associativity) : method_scope.
Local Open Scope method_scope.

(** [void inf_assert(bool pred, const char* msg)] *)
Definition inf_assert {S} (pred : bool) (msg : string) : method S unit :=
  if negb pred then throw msg else ret tt.

(** [switch (flag)] over the three flag constants, with its [default]. *)
Definition switch_flag {A} (flag : Z) (finite_case pos_case neg_case default : A) : A :=
  if flag =? FINITE_FLAG then finite_case
  else if flag =? POS_INF_FLAG then pos_case
  else if flag =? NEG_INF_FLAG then neg_case
  else default.

Section ExtendedClass.
Context {T : Type} {ops : Arithmetic T}.

(** Assignments to the two data members. *)
Definition set_value (v : T) : method (Extended T) unit :=
  fun s => (Return tt, mk_Extended v (m_flag s)).

Definition set_flag (f : Z) : method (Extended T) unit :=
  fun s => (Return tt, mk_Extended (m_value s) f).

(** [m_value = static_cast<T>(e)] for a primitive expression [e] that
    may be undefined. *)
Definition set_value_of (e : option T) : method (Extended T) unit :=
  match e with
  | Some v => set_value v
  | None => undefined
  end.

(** *** Construction *)

(** [Extended()] *)
Definition Extended_default : Extended T := mk_Extended zero FINITE_FLAG.

(** [explicit Extended(T number)] *)
Definition Extended_of (number : T) : Extended T := mk_Extended number FINITE_FLAG.

(** [explicit Extended(INF inf_type)] *)
Definition Extended_inf (inf_type : INF) : Extended T :=
  mk_Extended zero (if INF_eqb inf_type POS then POS_INF_FLAG else NEG_INF_FLAG).

(** *** Assignment *)

(** [Extended& operator=(T number)] *)
Definition op_assign (number : T) : method (Extended T) unit :=
  set_value number ;; set_flag FINITE_FLAG.

(** [Extended& operator=(INF inf_type)] *)
Definition op_assign_inf (inf_type : INF) : method (Extended T) unit :=
  set_flag (if INF_eqb inf_type POS then POS_INF_FLAG else NEG_INF_FLAG).

(** *** Basic functionality *)

(** [bool finite() const noexcept] *)
Definition finite (this : Extended T) : bool := m_flag this =? FINITE_FLAG.

(** [T value() const] *)
Definition value : method (Extended T) T :=
  this <- this_ ;;
  inf_assert (finite this) "Finite error: This is infinite." ;;
  ret (m_value this).

(** [INF infinite_type() const] *)
Definition infinite_type : method (Extended T) INF :=
  this <- this_ ;;
  inf_assert (negb (finite this)) "Finite error: This is finite." ;;
  ret (if m_flag this =? POS_INF_FLAG then POS else NEG).

(** *** Comparison *)

Definition op_eq (num_1 num_2 : Extended T) : bool :=
  if finite num_1 && finite num_2 then prim_eqb (m_value num_1) (m_value num_2)
  else m_flag num_1 =? m_flag num_2.

Definition op_ne (num_1 num_2 : Extended T) : bool := negb (op_eq num_1 num_2).

Definition op_lt (num_1 num_2 : Extended T) : bool :=
  if finite num_1 && finite num_2 then prim_ltb (m_value num_1) (m_value num_2)
  else if finite num_1 then m_flag num_2 =? POS_INF_FLAG
  else if finite num_2 then m_flag num_1 =? NEG_INF_FLAG
  else (m_flag num_1 =? NEG_INF_FLAG) && (m_flag num_2 =? POS_INF_FLAG).

Definition op_gt (num_1 num_2 : Extended T) : bool := op_lt num_2 num_1.

Definition op_le (num_1 num_2 : Extended T) : bool := negb (op_lt num_2 num_1).

Definition op_ge (num_1 num_2 : Extended T) : bool := negb (op_lt num_1 num_2).

(** *** Unary plus, unary minus and [bool] *)

Definition op_pos (this : Extended T) : Extended T := this.

Definition op_neg (this : Extended T) : Extended T :=
  let neg := Extended_default in
  if finite this then mk_Extended (prim_neg (m_value this)) (m_flag neg)
  else mk_Extended (m_value neg) (to_char (- m_flag this)).

Definition op_bool (this : Extended T) : bool :=
  if negb (finite this) then true
  else negb (prim_eqb (m_value this) zero).

(** *** Increment and decrement *)

(** [Extended& operator++() noexcept] *)
Definition op_pre_incr : method (Extended T) (Extended T) :=
  this <- this_ ;;
  set_value (prim_add (m_value this) one) ;;
  this_.

(** [Extended operator++(int) noexcept] *)
Definition op_post_incr : method (Extended T) (Extended T) :=
  tmp <- this_ ;;
  set_value (prim_add (m_value tmp) one) ;;
  ret tmp.

(** [Extended& operator--() noexcept] *)
Definition op_pre_decr : method (Extended T) (Extended T) :=
  this <- this_ ;;
  set_value (prim_sub (m_value this) one) ;;
  this_.

(** [Extended operator--(int) noexcept] *)
Definition op_post_decr : method (Extended T) (Extended T) :=
  tmp <- this_ ;;
  set_value (prim_sub (m_value tmp) one) ;;
  ret tmp.

(** *** Arithmetic *)

Definition internal_error {A} : method (Extended T) A :=
  throw "Internal error: invalid infinite flag.".

(** [Extended& operator+=(const Extended& other)] *)
Definition op_add_assign (other : Extended T) : method (Extended T) unit :=
  this <- this_ ;;
  switch_flag (m_flag this)
    (* case FINITE_FLAG *)
    (switch_flag (m_flag other)
       (set_value (prim_add (m_value this) (m_value other)))
       (set_flag (m_flag other))
       (set_flag (m_flag other))
       internal_error)
    (* case POS_INF_FLAG *)
    (switch_flag (m_flag other)
       (ret tt)
       (ret tt)
       (throw "Indeterminate form: +inf + -inf")
       internal_error)
    (* case NEG_INF_FLAG *)
    (switch_flag (m_flag other)
       (ret tt)
       (throw "Indeterminate form: -inf + +inf")
       (ret tt)
       internal_error)
    internal_error.

(** [Extended& operator-=(const Extended& other)] *)
Definition op_sub_assign (other : Extended T) : method (Extended T) unit :=
  this <- this_ ;;
  switch_flag (m_flag this)
    (* case FINITE_FLAG *)
    (switch_flag (m_flag other)
       (set_value (prim_sub (m_value this) (m_value other)))
       (set_flag (to_char (- m_flag other)))
       (set_flag (to_char (- m_flag other)))
       internal_error)
    (* case POS_INF_FLAG *)
    (switch_flag (m_flag other)
       (ret tt)
       (throw "Indeterminate form: +inf - +inf")
       (ret tt)
       internal_error)
    (* case NEG_INF_FLAG *)
    (switch_flag (m_flag other)
       (ret tt)
       (ret tt)
       (throw "Indeterminate form: -inf - -inf")
       internal_error)
    internal_error.

(** [Extended& operator*=(const Extended& other)] *)
Definition op_mul_assign (other : Extended T) : method (Extended T) unit :=
  this <- this_ ;;
  switch_flag (m_flag this)
    (* case FINITE_FLAG *)
    (let scale :=
       if prim_ltb (m_value this) zero then set_flag (to_char (- m_flag other))
       else if prim_ltb zero (m_value this) then set_flag (m_flag other)
       else ret tt in
     switch_flag (m_flag other)
       (set_value (prim_mul (m_value this) (m_value other)))
       scale
       scale
       internal_error)
    (* case POS_INF_FLAG *)
    (switch_flag (m_flag other)
       (if prim_eqb (m_value other) zero then
          set_value zero ;; set_flag FINITE_FLAG
        else if prim_ltb (m_value other) zero then set_flag NEG_INF_FLAG
        else ret tt)
       (set_flag (m_flag other))
       (set_flag (m_flag other))
       internal_error)
    (* case NEG_INF_FLAG *)
    (switch_flag (m_flag other)
       (if prim_eqb (m_value other) zero then
          set_value zero ;; set_flag FINITE_FLAG
        else if prim_ltb (m_value other) zero then set_flag POS_INF_FLAG
        else ret tt)
       (set_flag (to_char (- m_flag other)))
       (set_flag (to_char (- m_flag other)))
       internal_error)
    internal_error.

(** [Extended& operator/=(const Extended& other)] *)
Definition op_div_assign (other : Extended T) : method (Extended T) unit :=
  this <- this_ ;;
  switch_flag (m_flag this)
    (* case FINITE_FLAG *)
    (switch_flag (m_flag other)
       (inf_assert (negb (prim_eqb (m_value other) zero))
          "Indeterminate form: +inf / 0" ;;
        set_value (prim_div (m_value this) (m_value other)))
       (set_value zero)
       (set_value zero)
       internal_error)
    (* case POS_INF_FLAG *)
    (switch_flag (m_flag other)
       (inf_assert (negb (prim_eqb (m_value other) zero))
          "Indeterminate form: +inf / 0" ;;
        if prim_ltb (m_value other) zero then set_flag NEG_INF_FLAG else ret tt)
       (throw "+inf / +inf indeterminate form.")
       (throw "+inf / -inf indeterminate form.")
       internal_error)
    (* case NEG_INF_FLAG *)
    (switch_flag (m_flag other)
       (inf_assert (negb (prim_eqb (m_value other) zero))
          "Indeterminate form: +inf / 0" ;;
        if prim_ltb (m_value other) zero then set_flag POS_INF_FLAG else ret tt)
       (throw "-inf / +inf indeterminate form.")
       (throw "-inf / -inf indeterminate form.")
       internal_error)
    internal_error.

(** [Extended& operator%=(const Extended& other)] *)
Definition op_rem_assign (other : Extended T) : method (Extended T) unit :=
  this <- this_ ;;
  inf_assert (finite this && finite other)
    "Finite error: modular arithmetic requires finite values." ;;
  set_value_of (prim_rem (m_value this) (m_value other)).

(** *** Bitwise *)

(** [Extended operator~() const] *)
Definition op_not : method (Extended T) (Extended T) :=
  this <- this_ ;;
  inf_assert (finite this) "Finite error: bitwise not requires finite values." ;;
  ret (Extended_of (prim_not (m_value this))).

(** [Extended& operator&=(const Extended& other)] *)
Definition op_and_assign (other : Extended T) : method (Extended T) unit :=
  this <- this_ ;;
  inf_assert (finite this && finite other)
    "Finite error: bitwise and requires finite values." ;;
  set_value (prim_and (m_value this) (m_value other)).

(** [Extended& operator|=(const Extended& other)] *)
Definition op_or_assign (other : Extended T) : method (Extended T) unit :=
  this <- this_ ;;
  inf_assert (finite this && finite other)
    "Finite error: bitwise or requires finite values." ;;
  set_value (prim_or (m_value this) (m_value other)).

(** [Extended& operator^=(const Extended& other)] *)
Definition op_xor_assign (other : Extended T) : method (Extended T) unit :=
  this <- this_ ;;
  inf_assert (finite this && finite other)
    "Finite error: bitwise xor requires finite values." ;;
  set_value (prim_xor (m_value this) (m_value other)).

(** [Extended& operator<<=(const Extended& other)] *)
Definition op_shl_assign (other : Extended T) : method (Extended T) unit :=
  this <- this_ ;;
  inf_assert (finite this && finite other)
    "Finite error: bitwise leftshift requires finite values." ;;
  set_value_of (prim_shl (m_value this) (m_value other)).

(** [Extended& operator>>=(const Extended& other)] *)
Definition op_shr_assign (other : Extended T) : method (Extended T) unit :=
  this <- this_ ;;
  inf_assert (finite this && finite other)
    "Finite error: bitwise rightshift requires finite values." ;;
  set_value_of (prim_shr (m_value this) (m_value other)).

(** *** Streams *)

(** [friend std::ostream& operator<<(std::ostream& os, const Extended& ext)] *)
Definition op_insert (os : ostream) (ext : Extended T) : ostream :=
  if finite ext then os ++ prim_show (m_value ext)
  else os ++ (if m_flag ext =? POS_INF_FLAG then "+inf" else "-inf").

(** [friend std::istream& operator>>(std::istream& is, Extended& ext)] *)
Definition op_extract (is_ : istream) (ext : Extended T) : istream * Extended T :=
  let ext := mk_Extended (m_value ext) FINITE_FLAG in
  let (is_, v) := prim_read is_ (m_value ext) in
  (is_, mk_Extended v (m_flag ext)).

(** *** Symmetric arithmetic and bitwise *)

(** The body [lhs op= rhs; return lhs;] run on the by-value copy [lhs]. *)
Definition symmetric (assign : Extended T -> method (Extended T) unit)
    (lhs rhs : Extended T) : outcome (Extended T) :=
  fst (run (assign rhs ;; this_) lhs).

Definition op_add := symmetric op_add_assign.
Definition op_sub := symmetric op_sub_assign.
Definition op_mul := symmetric op_mul_assign.
Definition op_div := symmetric op_div_assign.
Definition op_rem := symmetric op_rem_assign.
Definition op_and := symmetric op_and_assign.
Definition op_or := symmetric op_or_assign.
Definition op_xor := symmetric op_xor_assign.
Definition op_shl := symmetric op_shl_assign.
Definition op_shr := symmetric op_shr_assign.

End ExtendedClass.

(** [template <typename S> Extended<S> as_type() const] *)
Definition as_type {T S : Type} {ops : Arithmetic T} {ops' : Arithmetic S} {cast : Cast T S}
    (this : Extended T) : Extended S :=
  if finite this then Extended_of (prim_cast (m_value this))
  else Extended_inf (if m_flag this =? POS_INF_FLAG then POS else NEG).

(** ** Integer instantiations

    The fixed-width integer types, as [Z] with the wrap-around written
    out.  [/] and [%] truncate towards zero and [>>] on a signed type is
    arithmetic.  Text goes through [std::num_put] and [std::num_get] in
    base ten. *)
Module Integral.

Record kind := mk_kind { bits : Z; is_signed : bool }.

Definition min_value (k : kind) : Z :=
  if is_signed k then - 2 ^ (bits k - 1) else 0.

Definition max_value (k : kind) : Z :=
  if is_signed k then 2 ^ (bits k - 1) - 1 else 2 ^ bits k - 1.

(** Conversion to the type: reduction modulo [2 ^ bits] into
    [min_value .. max_value]. *)
Definition wrap (k : kind) (z : Z) : Z :=
  (z - min_value k) mod 2 ^ bits k + min_value k.

Definition show (z : Z) : string := NilZero.string_of_int (Z.to_int z).

Definition is_space (c : ascii) : bool :=
  let n := Z.of_N (N_of_ascii c) in
  (n =? 32) || ((9 <=? n) && (n <=? 13)).

Definition digit_of (c : ascii) : option Z :=
  let n := Z.of_N (N_of_ascii c) in
  if (48 <=? n) && (n <=? 57) then Some (n - 48) else None.

Fixpoint skip_space (s : string) : string :=
  match s with
  | String c rest => if is_space c then skip_space rest else s
  | EmptyString => s
  end.

Definition read_sign (s : string) : bool * string :=
  match s with
  | String "-" rest => (true, rest)
  | String "+" rest => (false, rest)
  | _ => (false, s)
  end.

(** The longest run of digits, accumulated; [None] when there is none. *)
Fixpoint read_digits (s : string) (acc : option Z) : option Z * string :=
  match s with
  | String c rest =>
      match digit_of c with
      | Some d =>
          read_digits rest
            (Some (10 * match acc with Some a => a | None => 0 end + d))
      | None => (acc, s)
      end
  | EmptyString => (acc, s)
  end.

(** Formatted extraction of an integer.  The sentry comes first:
    nothing happens on a failed stream, and a stream that has only white
    space left gets the failbit with the target untouched.  Then the
    number is read: no digits give zero and the failbit; a magnitude out
    of range gives the nearest limit and the failbit. *)
Definition read (k : kind) (is_ : istream) (old : Z) : istream * Z :=
  if is_fail is_ then (is_, old)
  else
    match skip_space (is_buf is_) with
    | EmptyString => (mk_istream EmptyString true, old)
    | text =>
        let (negative, s) := read_sign text in
        match read_digits s None with
        | (None, rest) => (mk_istream rest true, 0)
        | (Some m, rest) =>
            let low := is_signed k && negative in
            if (if low then - min_value k else max_value k) <? m
            then (mk_istream rest true, if low then min_value k else max_value k)
            else (mk_istream rest false, wrap k (if negative then - m else m))
        end
    end.

(** The width in which the operands of a binary operator are computed:
    types narrower than [int] are promoted to it. *)
Definition promoted_bits (k : kind) : Z := Z.max (bits k) 32.

(** [x % y] has no value when [y] is zero or the quotient overflows. *)
Definition rem_defined (k : kind) (x y : Z) : bool :=
  negb (y =? 0) &&
  negb (is_signed k && (x =? - 2 ^ (promoted_bits k - 1)) && (y =? -1)).

(** [x << y] and [x >> y] have no value when the count is negative or
    not less than the width. *)
Definition shift_defined (k : kind) (y : Z) : bool :=
  (0 <=? y) && (y <? promoted_bits k).

Definition arithmetic (k : kind) : Arithmetic Z := {|
  zero := 0;
  one := 1;
  prim_eqb := Z.eqb;
  prim_ltb := Z.ltb;
  prim_neg := fun x => wrap k (- x);
  prim_add := fun x y => wrap k (x + y);
  prim_sub := fun x y => wrap k (x - y);
  prim_mul := fun x y => wrap k (x * y);
  prim_div := fun x y => wrap k (Z.quot x y);
  prim_rem := fun x y =>
    if rem_defined k x y then Some (wrap k (Z.rem x y)) else None;
  prim_not := fun x => wrap k (Z.lnot x);
  prim_and := fun x y => wrap k (Z.land x y);
  prim_or := fun x y => wrap k (Z.lor x y);
  prim_xor := fun x y => wrap k (Z.lxor x y);
  prim_shl := fun x y =>
    if shift_defined k y then Some (wrap k (Z.shiftl x y)) else None;
  prim_shr := fun x y =>
    if shift_defined k y then Some (wrap k (Z.shiftr x y)) else None;
  prim_show := show;
  prim_read := read k
|}.

Definition int16_t : Arithmetic Z := arithmetic (mk_kind 16 true).
Definition uint16_t : Arithmetic Z := arithmetic (mk_kind 16 false).
Definition uint32_t : Arithmetic Z := arithmetic (mk_kind 32 false).
Definition int64_t : Arithmetic Z := arithmetic (mk_kind 64 true).

End Integral.

(** ** Vocabulary of the properties *)

Section Vocabulary.
Context {T : Type} {ops : Arithmetic T}.

(** The compound assignments that can throw on well-formed operands. *)
Definition throwing_assignments : list (Extended T -> method (Extended T) unit) :=
  [op_add_assign; op_sub_assign; op_div_assign; op_rem_assign;
   op_and_assign; op_or_assign; op_xor_assign; op_shl_assign; op_shr_assign].

(** What an observer can ask of [x] together with any [y]: finiteness,
    the six comparisons in both orders, and the rendered text. *)
Definition observations (x y : Extended T) (os : ostream) :=
  (finite x,
   [op_eq x y; op_ne x y; op_lt x y; op_gt x y; op_le x y; op_ge x y;
    op_eq y x; op_ne y x; op_lt y x; op_gt y x; op_le y x; op_ge y x],
   op_insert os x).

(** [assert(lhs == rhs, ...)] for an expression that may throw. *)
Definition equals (lhs : outcome (Extended T)) (rhs : Extended T) : bool :=
  match lhs with
  | Return r => op_eq r rhs
  | Raise _ => false
  | Undefined => false
  end.

Definition thrown {A} (o : outcome A) : bool :=
  match o with
  | Return _ => false
  | Raise _ => true
  | Undefined => false
  end.

End Vocabulary.

(** ** benchmark.cpp *)

(** [std::accumulate(first, last, init, op)], with an [op] that may
    throw. *)
Fixpoint accumulate {A B} (op : A -> B -> outcome A) (numbers : list B)
    (init : A) : outcome A :=
  match numbers with
  | [] => Return init
  | x :: rest =>
      match op init x with
      | Return init' => accumulate op rest init'
      | Raise e => Raise e
      | Undefined => Undefined
      end
  end.

(** [template <typename T> pair<T, T> operate(const vector<T>& numbers)],
    over the [T(0)], [T(1)], [+] and [*] of its instantiation. *)
Definition operate {N} (N_0 N_1 : N) (plus times : N -> N -> outcome N)
    (numbers : list N) : outcome (N * N) :=
  match accumulate plus numbers N_0 with
  | Return sum =>
      match accumulate times numbers N_1 with
      | Return prod => Return (sum, prod)
      | Raise e => Raise e
      | Undefined => Undefined
      end
  | Raise e => Raise e
  | Undefined => Undefined
  end.

Section Benchmark.
Context {T : Type} {ops : Arithmetic T}.

(** [template <typename T> vector<Extended<T>> extend(const vector<T>&)] *)
Definition extend (original : list T) : list (Extended T) :=
  map (fun x => Extended_of x) original.

(** [operate] at the primitive type. *)
Definition operate_primitive : list T -> outcome (T * T) :=
  operate zero one
    (fun x y => Return (prim_add x y)) (fun x y => Return (prim_mul x y)).

(** [operate] at [Extended<T>]. *)
Definition operate_extended : list (Extended T) -> outcome (Extended T * Extended T) :=
  operate (Extended_of zero) (Extended_of one) op_add op_mul.

End Benchmark.

(** ** Further vocabulary *)

Section Representation.
Context {T : Type} {ops : Arithmetic T}.

(** Two representations of one extended number: the flags agree, and so
    do the payloads when the flag is finite. *)
Definition same (x y : Extended T) : Prop :=
  m_flag x = m_flag y /\ (finite x = true -> m_value x = m_value y).

(** Every compound assignment of the class. *)
Definition assignments : list (Extended T -> method (Extended T) unit) :=
  op_mul_assign :: throwing_assignments.

(** Two results of an expression agree: both are values that compare
    equal, or both are exceptions. *)
Definition agree (o o' : outcome (Extended T)) : bool :=
  match o, o' with
  | Return r, Return r' => op_eq r r'
  | Raise _, Raise _ => true
  | _, _ => false
  end.

(** The value of [f(e)] for an expression [e] that may throw. *)
Definition and_then {A B} (o : outcome A) (f : A -> outcome B) : outcome B :=
  match o with
  | Return a => f a
  | Raise e => Raise e
  | Undefined => Undefined
  end.

(** Whether some element of a vector carries the given flag. *)
Definition has_flag (flag : Z) (numbers : list (Extended T)) : bool :=
  existsb (fun x => m_flag x =? flag) numbers.

End Representation.

(** [static_cast] to a fixed-width integer type. *)
Definition Integral_cast (k : Integral.kind) : Cast Z Z := Integral.wrap k.

(** * Properties *)

(** Unfolds a member function down to the receiver it returns. *)
Ltac unfold_method :=
  unfold symmetric, run,
    op_add_assign, op_sub_assign, op_mul_assign, op_div_assign, op_rem_assign,
    op_and_assign, op_or_assign, op_xor_assign, op_shl_assign, op_shr_assign,
    op_not, op_pre_incr, op_post_incr, op_pre_decr, op_post_decr,
    op_assign, op_assign_inf, value, infinite_type,
    switch_flag, internal_error, inf_assert, bind, this_, throw, ret,
    undefined, set_value_of, set_value, set_flag, finite, Extended_of,
    Extended_default in *.

(** Splits on every test the goal still branches on. *)
Ltac split_tests :=
  repeat match goal with
         | |- context [if ?c then _ else _] => destruct c eqn:?
         | |- context [match ?c with Some _ => _ | None => _ end] =>
             destruct c eqn:?
         end.

(** Replaces a well-formed value by its three possible shapes. *)
Ltac wf_shapes a :=
  match goal with
  | W : wf a |- _ =>
      destruct a as [? ?]; unfold wf in W; cbn [m_flag m_value] in *;
      destruct W as [W | [W | W]]; subst
  end.

Section Properties.
Context {T : Type} {ops : Arithmetic T}.

(** ** The flag invariant *)

Lemma wf_Extended_default : wf (@Extended_default T ops).
Proof. left; reflexivity. Qed.

Lemma wf_Extended_of (number : T) : wf (Extended_of number).
Proof. left; reflexivity. Qed.

Lemma wf_Extended_inf (inf_type : INF) : wf (@Extended_inf T ops inf_type).
Proof. destruct inf_type; [right; left | right; right]; reflexivity. Qed.

Lemma wf_op_neg (this : Extended T) : wf this -> wf (op_neg this).
Proof.
  intros W. wf_shapes this; unfold op_neg, wf; cbn; auto.
Qed.

Lemma wf_increment (this : Extended T) :
  wf this ->
  wf (snd (run op_pre_incr this)) /\ wf (snd (run op_post_incr this)) /\
  wf (snd (run op_pre_decr this)) /\ wf (snd (run op_post_decr this)).
Proof. intros W. unfold_method. cbn. auto. Qed.

Lemma wf_arithmetic (this other : Extended T) :
  wf this -> wf other ->
  wf (snd (run (op_add_assign other) this)) /\
  wf (snd (run (op_sub_assign other) this)) /\
  wf (snd (run (op_mul_assign other) this)) /\
  wf (snd (run (op_div_assign other) this)).
Proof.
  intros W W'. wf_shapes this; wf_shapes other;
    unfold_method; unfold wf; cbn;
    repeat split; split_tests; cbn; auto.
Qed.

Lemma wf_finite_only (this other : Extended T) :
  wf this ->
  wf (snd (run (op_rem_assign other) this)) /\
  wf (snd (run (op_and_assign other) this)) /\
  wf (snd (run (op_or_assign other) this)) /\
  wf (snd (run (op_xor_assign other) this)) /\
  wf (snd (run (op_shl_assign other) this)) /\
  wf (snd (run (op_shr_assign other) this)).
Proof.
  intros W. unfold_method. unfold wf in *.
  repeat split; split_tests; cbn; auto.
Qed.

Lemma wf_assign (number : T) (inf_type : INF) (this : Extended T) :
  wf (snd (run (op_assign number) this)) /\
  wf (snd (run (op_assign_inf inf_type) this)).
Proof.
  unfold_method. unfold wf. cbn. destruct inf_type; cbn; auto.
Qed.

Lemma wf_op_not (this r this' : Extended T) :
  wf this -> run op_not this = (Return r, this') -> wf r /\ this' = this.
Proof.
  intros W. unfold_method. split_tests; intros E; inversion E; subst.
  split; [left |]; reflexivity.
Qed.

Lemma wf_op_extract (is_ : istream) (ext : Extended T) :
  wf (snd (op_extract is_ ext)).
Proof.
  unfold op_extract. cbn. destruct (prim_read is_ (m_value ext)). left; reflexivity.
Qed.

(** ** Accessors *)

(** C5: [value()] returns the payload exactly when the flag is finite and
    throws otherwise; [infinite_type()] returns the sign of the infinity
    exactly when the flag is not finite and throws otherwise; both leave
    the receiver as it was. *)
Theorem value_infinite_type_spec (this : Extended T) :
  run value this =
    (if finite this then Return (m_value this)
     else Raise (mk_infinite_error "Finite error: This is infinite."), this) /\
  run infinite_type this =
    (if finite this then Raise (mk_infinite_error "Finite error: This is finite.")
     else Return (if m_flag this =? POS_INF_FLAG then POS else NEG), this) /\
  (forall v : T,
     run infinite_type (mk_Extended v POS_INF_FLAG) =
       (Return POS, mk_Extended v POS_INF_FLAG) /\
     run infinite_type (mk_Extended v NEG_INF_FLAG) =
       (Return NEG, mk_Extended v NEG_INF_FLAG)).
Proof.
  split; [| split].
  - unfold run, value, bind, this_, inf_assert, throw, ret.
    destruct (finite this); reflexivity.
  - unfold run, infinite_type, bind, this_, inf_assert, throw, ret.
    destruct (finite this); reflexivity.
  - intros v. split; reflexivity.
Qed.

(** ** Addition and subtraction *)

(** C1: the state-transition table of [+=] and [-=].  Finite with
    Finite gives the primitive sum, respectively difference, of the
    payloads; Finite with an infinity takes the flag of the right operand
    under [+=] and the opposite flag under [-=]; an infinity stays as it
    is when the right operand is Finite or is the infinity of the same
    sign ([+=]) or of the opposite sign ([-=]); and [+inf += -inf],
    [-inf += +inf], [+inf -= +inf], [-inf -= -inf] throw. *)
Theorem additive_transition_table (a b : Extended T) :
  wf a -> wf b ->
  (* Finite with Finite *)
  (finite a = true -> finite b = true ->
   run (op_add_assign b) a =
     (Return tt, Extended_of (prim_add (m_value a) (m_value b))) /\
   run (op_sub_assign b) a =
     (Return tt, Extended_of (prim_sub (m_value a) (m_value b)))) /\
  (* Finite with an infinity *)
  (finite a = true -> finite b = false ->
   run (op_add_assign b) a = (Return tt, mk_Extended (m_value a) (m_flag b)) /\
   run (op_sub_assign b) a = (Return tt, mk_Extended (m_value a) (- m_flag b))) /\
  (* an infinity with Finite, or with the infinity that agrees *)
  (finite a = false -> finite b = true \/ m_flag b = m_flag a ->
   run (op_add_assign b) a = (Return tt, a)) /\
  (finite a = false -> finite b = true \/ m_flag b = - m_flag a ->
   run (op_sub_assign b) a = (Return tt, a)) /\
  (* the indeterminate forms *)
  (finite a = false -> m_flag b = - m_flag a ->
   exists e, run (op_add_assign b) a = (Raise e, a)) /\
  (finite a = false -> m_flag b = m_flag a ->
   exists e, run (op_sub_assign b) a = (Raise e, a)).
Proof.
  intros Wa Wb.
  wf_shapes a; wf_shapes b; unfold_method; cbn;
    repeat split; intros; try discriminate; try reflexivity;
    try (eexists; reflexivity);
    repeat match goal with
           | D : _ \/ _ |- _ => destruct D
           end; discriminate.
Qed.

(** ** Errors leave the receiver alone *)

(** C10: when one of [+=], [-=], [/=], [%=], [&=], [|=], [^=], [<<=],
    [>>=] throws, the receiver has its flag and payload from before the
    call. *)
Theorem compound_assignment_raise_unchanged
    (assign : Extended T -> method (Extended T) unit)
    (a b a' : Extended T) (e : infinite_error) :
  In assign throwing_assignments ->
  run (assign b) a = (Raise e, a') ->
  a' = a.
Proof.
  intros Hin Hrun. unfold throwing_assignments in Hin. cbn [In] in Hin.
  repeat match type of Hin with
         | _ \/ _ => destruct Hin as [<- | Hin]
         end; try contradiction;
    revert Hrun; unfold_method; split_tests; intros Hrun;
    inversion Hrun; reflexivity.
Qed.

Section Ordered.
Context {ord : ArithmeticOrder T}.

(** ** Facts about the primitive order *)

Lemma prim_eqb_refl (x : T) : prim_eqb x x = true.
Proof. apply prim_eqb_eq. reflexivity. Qed.

Lemma prim_eqb_neq (x y : T) : prim_eqb x y = false <-> x <> y.
Proof.
  split.
  - intros E ->. rewrite prim_eqb_refl in E. discriminate.
  - intros N. destruct (prim_eqb x y) eqn:E; [| reflexivity].
    apply prim_eqb_eq in E. contradiction.
Qed.

Lemma prim_ltb_asym (x y : T) : prim_ltb x y = true -> prim_ltb y x = false.
Proof.
  intros L. destruct (prim_ltb y x) eqn:G; [| reflexivity].
  pose proof (prim_ltb_trans _ _ _ L G) as C.
  rewrite prim_ltb_irrefl in C. discriminate.
Qed.

Lemma prim_ltb_neq (x y : T) : prim_ltb x y = true -> prim_eqb x y = false.
Proof.
  intros L. apply prim_eqb_neq. intros ->.
  rewrite prim_ltb_irrefl in L. discriminate.
Qed.

Lemma prim_ltb_neq_sym (x y : T) : prim_ltb x y = true -> prim_eqb y x = false.
Proof.
  intros L. apply prim_eqb_neq. intros ->.
  rewrite prim_ltb_irrefl in L. discriminate.
Qed.

Lemma prim_not_ltb (x y : T) :
  prim_ltb x y = false -> x = y \/ prim_ltb y x = true.
Proof.
  intros L. destruct (prim_ltb_total x y) as [C | [C | C]]; auto.
  rewrite C in L. discriminate.
Qed.

Lemma prim_leb_trans (x y z : T) :
  prim_ltb y x = false -> prim_ltb z y = false -> prim_ltb z x = false.
Proof.
  intros Lxy Lyz.
  destruct (prim_not_ltb _ _ Lxy) as [-> | Lxy']; [assumption |].
  destruct (prim_not_ltb _ _ Lyz) as [-> | Lyz']; [assumption |].
  apply prim_ltb_asym. eapply prim_ltb_trans; eassumption.
Qed.

Lemma prim_trichotomy (x y : T) :
  (prim_ltb x y = true /\ prim_eqb x y = false /\ prim_ltb y x = false) \/
  (prim_ltb x y = false /\ prim_eqb x y = true /\ prim_ltb y x = false) \/
  (prim_ltb x y = false /\ prim_eqb x y = false /\ prim_ltb y x = true).
Proof.
  destruct (prim_ltb_total x y) as [L | [-> | G]].
  - left. auto using prim_ltb_asym, prim_ltb_neq.
  - right; left. rewrite prim_ltb_irrefl, prim_eqb_refl. auto.
  - right; right. auto using prim_ltb_asym, prim_ltb_neq_sym.
Qed.

Lemma prim_sign_nonzero (x : T) :
  x <> zero -> prim_sign x = 1 \/ prim_sign x = -1.
Proof.
  intros N. unfold prim_sign.
  destruct (prim_ltb x zero) eqn:L; [right; reflexivity |].
  destruct (prim_not_ltb _ _ L) as [-> | ->]; [contradiction | left; reflexivity].
Qed.

Lemma prim_sign_zero : prim_sign (zero : T) = 0.
Proof. unfold prim_sign. rewrite prim_ltb_irrefl. reflexivity. Qed.

(** ** Comparison *)

(** C4: [<=] is transitive, exactly one of [<], [==], [>] holds, Finite
    values compare by payload, a Finite value lies strictly between the
    two infinities, and two infinities are equal exactly when their flags
    agree. *)
Theorem comparison_strict_total_order (a b c : Extended T) :
  wf a -> wf b -> wf c ->
  (op_le a b = true -> op_le b c = true -> op_le a c = true) /\
  ((op_lt a b = true /\ op_eq a b = false /\ op_gt a b = false) \/
   (op_lt a b = false /\ op_eq a b = true /\ op_gt a b = false) \/
   (op_lt a b = false /\ op_eq a b = false /\ op_gt a b = true)) /\
  (finite a = true -> finite b = true ->
   op_lt a b = prim_ltb (m_value a) (m_value b) /\
   op_eq a b = prim_eqb (m_value a) (m_value b)) /\
  (finite a = true -> m_flag b = POS_INF_FLAG -> op_lt a b = true) /\
  (finite a = true -> m_flag b = NEG_INF_FLAG -> op_gt a b = true) /\
  (m_flag a = NEG_INF_FLAG -> m_flag b = POS_INF_FLAG -> op_lt a b = true) /\
  (finite a = false -> finite b = false ->
   (op_eq a b = true <-> m_flag a = m_flag b)).
Proof.
  intros Wa Wb Wc.
  split; [| split].
  - unfold op_le.
    wf_shapes a; wf_shapes b; wf_shapes c; unfold op_lt, finite; cbn;
      try discriminate; try reflexivity.
    rewrite !negb_true_iff. apply prim_leb_trans.
  - unfold op_gt.
    wf_shapes a; wf_shapes b; unfold op_lt, op_eq, finite; cbn; auto.
    apply prim_trichotomy.
  - clear c Wc.
    wf_shapes a; wf_shapes b; unfold op_gt, op_lt, op_eq, finite; cbn;
      repeat split; intros; try discriminate; try reflexivity.
Qed.

(** ** Multiplication and division *)

(** Settles a goal that still tests a payload known to be nonzero. *)
Ltac settle_nonzero :=
  match goal with
  | N : ?x <> zero |- _ =>
      rewrite ?(proj2 (prim_eqb_neq x zero) N);
      try unfold prim_sign;
      let L := fresh "L" in
      let G := fresh "G" in
      destruct (prim_ltb x zero) eqn:L; [cbn; reflexivity |];
      destruct (prim_not_ltb _ _ L) as [G | G];
      [contradiction | rewrite ?G; cbn; reflexivity]
  end.

(** C2: division of Finite by nonzero Finite is the primitive quotient;
    Finite by an infinity is Finite zero; an infinity by nonzero Finite
    is the infinity whose flag is the product of the flag and the sign of
    the divisor; a Finite zero divisor throws for every dividend, and so
    does an infinity divided by an infinity. *)
Theorem division_spec (a b : Extended T) :
  wf a -> wf b ->
  (finite a = true -> finite b = true -> m_value b <> zero ->
   op_div a b = Return (Extended_of (prim_div (m_value a) (m_value b)))) /\
  (finite a = true -> finite b = false ->
   op_div a b = Return (Extended_of zero)) /\
  (finite a = false -> finite b = true -> m_value b <> zero ->
   (prim_sign (m_value b) = 1 \/ prim_sign (m_value b) = -1) /\
   op_div a b =
     Return (mk_Extended (m_value a) (m_flag a * prim_sign (m_value b)))) /\
  (finite b = true -> m_value b = zero -> exists e, op_div a b = Raise e) /\
  (finite a = false -> finite b = false -> exists e, op_div a b = Raise e).
Proof.
  intros Wa Wb.
  wf_shapes a; wf_shapes b; unfold op_div; unfold_method; cbn;
    repeat split; intros; subst; try discriminate;
    rewrite ?prim_eqb_refl; cbn;
    try (eexists; reflexivity); try reflexivity.
  all: try (apply prim_sign_nonzero; assumption).
  all: settle_nonzero.
Qed.

(** C3: under multiplication a Finite zero and an infinity give Finite
    zero in either order; a nonzero Finite and an infinity give the
    infinity whose flag is the product of the sign and the flag; two
    infinities give the infinity whose flag is the product of the flags;
    and the product of two values never throws. *)
Theorem multiplication_spec (a b : Extended T) :
  wf a -> wf b ->
  (exists r, op_mul a b = Return r /\ wf r) /\
  (exists a', run (op_mul_assign b) a = (Return tt, a')) /\
  (finite a = true -> finite b = false -> m_value a = zero ->
   op_mul a b = Return (Extended_of zero)) /\
  (finite a = false -> finite b = true -> m_value b = zero ->
   op_mul a b = Return (Extended_of zero)) /\
  (finite a = true -> finite b = false -> m_value a <> zero ->
   (prim_sign (m_value a) = 1 \/ prim_sign (m_value a) = -1) /\
   op_mul a b =
     Return (mk_Extended (m_value a) (prim_sign (m_value a) * m_flag b))) /\
  (finite a = false -> finite b = true -> m_value b <> zero ->
   (prim_sign (m_value b) = 1 \/ prim_sign (m_value b) = -1) /\
   op_mul a b =
     Return (mk_Extended (m_value a) (m_flag a * prim_sign (m_value b)))) /\
  (finite a = false -> finite b = false ->
   op_mul a b = Return (mk_Extended (m_value a) (m_flag a * m_flag b))).
Proof.
  intros Wa Wb.
  split; [| split].
  - wf_shapes a; wf_shapes b; unfold op_mul; unfold_method; unfold wf; cbn;
      split_tests; cbn; eexists; split; try reflexivity; cbn; auto.
  - wf_shapes a; wf_shapes b; unfold_method; cbn;
      split_tests; cbn; eexists; reflexivity.
  - wf_shapes a; wf_shapes b; unfold op_mul; unfold_method; cbn;
      repeat split; intros; subst; try discriminate;
      rewrite ?prim_eqb_refl, ?prim_ltb_irrefl; cbn; try reflexivity.
    all: try (apply prim_sign_nonzero; assumption).
    all: settle_nonzero.
Qed.

End Ordered.

(** ** Increment and decrement *)

(** C6: on an infinite value the four increment and decrement operators
    return normally, change the payload by one and keep the flag; the
    value is as finite as before, compares with every value as before
    and renders as before. *)
Theorem increment_infinite_frame (a : Extended T) :
  finite a = false ->
  let up := mk_Extended (prim_add (m_value a) one) (m_flag a) in
  let down := mk_Extended (prim_sub (m_value a) one) (m_flag a) in
  run op_pre_incr a = (Return up, up) /\
  run op_post_incr a = (Return a, up) /\
  run op_pre_decr a = (Return down, down) /\
  run op_post_decr a = (Return a, down) /\
  forall (b : Extended T) (os : ostream),
    observations up b os = observations a b os /\
    observations down b os = observations a b os.
Proof.
  intros Inf up down. destruct a as [v f]. unfold finite in Inf. cbn in Inf.
  repeat split;
    unfold up, down, observations, op_ne, op_gt, op_le, op_ge,
      op_eq, op_lt, op_insert, finite; cbn;
    rewrite ?Inf, ?andb_false_r; cbn; reflexivity.
Qed.

(** ** Modulo and the bitwise family *)

(** C7: [%=], [&=], [|=], [^=], [<<=], [>>=] and [~] throw, leaving the
    receiver alone, as soon as one operand is not Finite.  When every
    operand is Finite they apply the primitive operator to the payloads:
    [&=], [|=], [^=] and [~] always return its result; [%=], [<<=] and
    [>>=] return its result where the primitive has one, and are as
    undefined as the primitive where it has none, without any check of
    their own: at the integer types [Extended(x) %= Extended(0)] neither
    returns nor throws. *)
Theorem finite_only_operators (a b : Extended T) :
  (finite a = true -> finite b = true ->
   run (op_and_assign b) a =
     (Return tt, Extended_of (prim_and (m_value a) (m_value b))) /\
   run (op_or_assign b) a =
     (Return tt, Extended_of (prim_or (m_value a) (m_value b))) /\
   run (op_xor_assign b) a =
     (Return tt, Extended_of (prim_xor (m_value a) (m_value b))) /\
   (forall r, prim_rem (m_value a) (m_value b) = Some r ->
              run (op_rem_assign b) a = (Return tt, Extended_of r)) /\
   (forall r, prim_shl (m_value a) (m_value b) = Some r ->
              run (op_shl_assign b) a = (Return tt, Extended_of r)) /\
   (forall r, prim_shr (m_value a) (m_value b) = Some r ->
              run (op_shr_assign b) a = (Return tt, Extended_of r)) /\
   (prim_rem (m_value a) (m_value b) = None ->
    run (op_rem_assign b) a = (Undefined, a)) /\
   (prim_shl (m_value a) (m_value b) = None ->
    run (op_shl_assign b) a = (Undefined, a)) /\
   (prim_shr (m_value a) (m_value b) = None ->
    run (op_shr_assign b) a = (Undefined, a))) /\
  (finite a = true ->
   run op_not a = (Return (Extended_of (prim_not (m_value a))), a)) /\
  (finite a = false \/ finite b = false ->
   (exists e, run (op_rem_assign b) a = (Raise e, a)) /\
   (exists e, run (op_and_assign b) a = (Raise e, a)) /\
   (exists e, run (op_or_assign b) a = (Raise e, a)) /\
   (exists e, run (op_xor_assign b) a = (Raise e, a)) /\
   (exists e, run (op_shl_assign b) a = (Raise e, a)) /\
   (exists e, run (op_shr_assign b) a = (Raise e, a))) /\
  (finite a = false -> exists e, run op_not a = (Raise e, a)) /\
  (forall (k : Integral.kind) (x y : Z),
     run (op_rem_assign (ops := Integral.arithmetic k) (Extended_of 0))
       (Extended_of x) = (Undefined, Extended_of x) /\
     (Integral.rem_defined k x y = true ->
      run (op_rem_assign (ops := Integral.arithmetic k) (Extended_of y))
        (Extended_of x) =
      (Return tt, Extended_of (Integral.wrap k (Z.rem x y))))).
Proof.
  destruct a as [va fa], b as [vb fb].
  split; [| split; [| split; [| split]]].
  - unfold finite; cbn. intros Fa Fb.
    apply Z.eqb_eq in Fa; unfold FINITE_FLAG in Fa; subst fa.
    unfold_method; cbn; rewrite Fb; cbn.
    repeat split; intros; 
      match goal with
      | E : _ = _ |- _ => rewrite E; reflexivity
      end.
  - unfold finite; cbn. intros Fa.
    unfold_method; cbn; rewrite Fa; cbn. reflexivity.
  - intros Inf.
    assert (finite (mk_Extended va fa) && finite (mk_Extended vb fb) = false) as F
      by (destruct Inf as [-> | ->]; [| rewrite andb_false_r]; reflexivity).
    unfold finite in F; cbn in F.
    unfold_method; cbn; rewrite F; cbn.
    repeat split; eexists; reflexivity.
  - unfold finite; cbn. intros Fa.
    unfold_method; cbn; rewrite Fa; cbn. eexists; reflexivity.
  - intros k x y. split.
    + unfold_method. cbn. unfold Integral.rem_defined. cbn. reflexivity.
    + intros D. unfold_method. cbn. rewrite D. reflexivity.
Qed.

End Properties.

Lemma wf_as_type {T S : Type} {ops : Arithmetic T} {ops' : Arithmetic S}
    {cast : Cast T S} (this : Extended T) :
  wf (as_type (S := S) this).
Proof.
  unfold as_type. destruct (finite this); [left; reflexivity |].
  apply wf_Extended_inf.
Qed.

(** ** Text *)

(** C8: a Finite value renders as the primitive renders its payload, so
    that [Extended<uint16_t>(256)] renders as [256]; positive infinity
    renders as [+inf] and negative infinity as [-inf]. *)
Theorem insertion_spec :
  (forall (T : Type) (ops : Arithmetic T) (os : ostream) (v : T),
     op_insert os (Extended_of v) = (os ++ prim_show v)%string) /\
  (forall (T : Type) (ops : Arithmetic T) (os : ostream) (v : T),
     op_insert os (mk_Extended v POS_INF_FLAG) = (os ++ "+inf")%string /\
     op_insert os (mk_Extended v NEG_INF_FLAG) = (os ++ "-inf")%string) /\
  op_insert (ops := Integral.uint16_t) "" (Extended_of 256) = "256" /\
  op_insert (ops := Integral.uint16_t) ""
    (Extended_inf (ops := Integral.uint16_t) POS) = "+inf" /\
  op_insert (ops := Integral.uint16_t) ""
    (Extended_inf (ops := Integral.uint16_t) NEG) = "-inf".
Proof.
  repeat split; reflexivity.
Qed.

(** C9: extraction leaves the value Finite whatever it was and whatever
    the stream holds; reading [-480] from a good stream into an
    [Extended<int64_t>] or [Extended<int16_t>] of any prior state gives
    the value [Extended(-480)]. *)
Theorem extraction_spec :
  (forall (T : Type) (ops : Arithmetic T) (is_ : istream) (ext : Extended T),
     finite (snd (op_extract is_ ext)) = true /\
     m_value (snd (op_extract is_ ext)) = snd (prim_read is_ (m_value ext))) /\
  (forall ext : Extended Z,
     snd (op_extract (ops := Integral.int64_t) (mk_istream "-480" false) ext)
       = Extended_of (-480) /\
     op_eq (ops := Integral.int64_t)
       (snd (op_extract (ops := Integral.int64_t) (mk_istream "-480" false) ext))
       (Extended_of (-480)) = true) /\
  (forall ext : Extended Z,
     snd (op_extract (ops := Integral.int16_t) (mk_istream "-480" false) ext)
       = Extended_of (-480) /\
     op_eq (ops := Integral.int16_t)
       (snd (op_extract (ops := Integral.int16_t) (mk_istream "-480" false) ext))
       (Extended_of (-480)) = true).
Proof.
  split; [| split].
  - intros T ops is_ ext. unfold op_extract. cbn.
    destruct (prim_read is_ (m_value ext)). split; reflexivity.
  - intros ext. split; vm_compute; reflexivity.
  - intros ext. split; vm_compute; reflexivity.
Qed.

(** ** The integer instantiations are ordered *)

Lemma Integral_order (k : Integral.kind) :
  @ArithmeticOrder Z (Integral.arithmetic k).
Proof.
  constructor; cbn; intros.
  - apply Z.eqb_eq.
  - apply Z.ltb_irrefl.
  - rewrite Z.ltb_lt in *; lia.
  - rewrite !Z.ltb_lt; lia.
Qed.

Lemma Integral_wrap_range (k : Integral.kind) (z : Z) :
  0 < Integral.bits k ->
  Integral.min_value k <= Integral.wrap k z <= Integral.max_value k.
Proof.
  intros B. unfold Integral.wrap, Integral.min_value, Integral.max_value.
  assert (2 ^ Integral.bits k = 2 * 2 ^ (Integral.bits k - 1)) as P.
  { rewrite <- Z.pow_succ_r by lia. f_equal. lia. }
  assert (0 < 2 ^ Integral.bits k) as Q by (apply Z.pow_pos_nonneg; lia).
  destruct (Integral.is_signed k).
  - pose proof (Z.mod_pos_bound
                  (z - - 2 ^ (Integral.bits k - 1)) (2 ^ Integral.bits k) Q).
    lia.
  - pose proof (Z.mod_pos_bound (z - 0) (2 ^ Integral.bits k) Q). lia.
Qed.

(** ** The repository's tests, replayed on the model *)

Module Tests.

Section Int16.
Let int16 : Arithmetic Z := Integral.int16_t.
Local Existing Instance int16.

Let pos : Extended Z := Extended_of 42.
Let neg : Extended Z := Extended_of (-42).
Let pos_inf : Extended Z := Extended_inf POS.
Let neg_inf : Extended Z := Extended_inf NEG.
Let zero_ : Extended Z := Extended_of 0.
Let one_ : Extended Z := Extended_of 1.

(** [test::comparison]: the five values in increasing order. *)
Example test_comparison :
  let nums := [neg_inf; neg; Extended_default; pos; pos_inf] in
  forallb (fun i =>
    forallb (fun j =>
      let a := nth i nums zero_ in
      let b := nth j nums zero_ in
      if (i =? j)%nat then
        op_eq a b && negb (op_ne a b) && negb (op_lt a b) &&
        op_le a b && negb (op_gt a b) && op_ge a b
      else if (i <? j)%nat then
        negb (op_eq a b) && op_ne a b && op_lt a b &&
        op_le a b && negb (op_gt a b) && negb (op_ge a b)
      else
        negb (op_eq a b) && op_ne a b && negb (op_lt a b) &&
        negb (op_le a b) && op_gt a b && op_ge a b)
      (seq 0 5))
    (seq 0 5) = true.
Proof. vm_compute. reflexivity. Qed.

(** [test::add_subtract] *)
Example test_add_subtract :
  forallb (fun x =>
    equals (op_add pos_inf x) pos_inf &&
    equals (op_sub x neg_inf) pos_inf &&
    equals (op_sub neg_inf x) neg_inf) [pos; neg; zero_; pos_inf] &&
  forallb (fun x =>
    equals (op_sub pos_inf x) pos_inf &&
    equals (op_sub x pos_inf) neg_inf &&
    equals (op_add x neg_inf) neg_inf) [pos; neg; zero_; neg_inf] &&
  thrown (op_sub pos_inf pos_inf) && thrown (op_add pos_inf neg_inf) &&
  thrown (op_add neg_inf pos_inf) && thrown (op_sub neg_inf neg_inf) = true.
Proof. vm_compute. reflexivity. Qed.

(** [test::multiply_divide] *)
Example test_multiply_divide :
  forallb (fun val =>
    equals (op_mul val one_) val && equals (op_mul one_ val) val &&
    equals (op_mul val zero_) zero_ && equals (op_mul zero_ val) zero_ &&
    equals (op_div val one_) val) [pos; neg; pos_inf; neg_inf; zero_; one_] &&
  forallb (fun inf =>
    equals (op_div inf pos) inf && equals (op_div inf neg) (op_neg inf) &&
    equals (op_mul inf pos) inf && equals (op_mul inf pos_inf) inf &&
    equals (op_mul neg inf) (op_neg inf) &&
    equals (op_mul neg_inf inf) (op_neg inf)) [pos_inf; neg_inf] &&
  forallb (fun x =>
    equals (op_div x pos_inf) zero_ && equals (op_div x neg_inf) zero_)
    [pos; neg; zero_; one_] = true.
Proof. vm_compute. reflexivity. Qed.

End Int16.

(** [test::stream] *)
Example test_stream :
  op_insert (ops := Integral.uint16_t) "" (Extended_of 256) = "256" /\
  op_insert (ops := Integral.int16_t) "" (Extended_of (-480)) = "-480" /\
  fst (run value
         (snd (op_extract (ops := Integral.int64_t) (mk_istream "-480" false)
                 (Extended_inf (ops := Integral.int64_t) NEG))))
    = Return (-480).
Proof. repeat split; vm_compute; reflexivity. Qed.

End Tests.

(** ** The theorems at concrete values *)

#[local] Existing Instance Integral.int16_t.

Lemma additive_transition_table_witness :
  wf (Extended_of 40) /\ wf (Extended_of 2) /\
  run (op_add_assign (ops := Integral.int16_t) (Extended_of 2)) (Extended_of 40)
    = (Return tt, Extended_of 42).
Proof.
  assert (wf (Extended_of 40)) as Wa by (left; reflexivity).
  assert (wf (Extended_of 2)) as Wb by (left; reflexivity).
  split; [exact Wa | split; [exact Wb |]].
  destruct (additive_transition_table (ops := Integral.int16_t) _ _ Wa Wb)
    as [FF _].
  exact (proj1 (FF eq_refl eq_refl)).
Defined.

Lemma compound_assignment_raise_unchanged_witness :
  In (op_div_assign (ops := Integral.int16_t))
    (throwing_assignments (ops := Integral.int16_t)) /\
  run (op_div_assign (ops := Integral.int16_t) (Extended_of 0)) (Extended_of 5)
    = (Raise (mk_infinite_error "Indeterminate form: +inf / 0"), Extended_of 5) /\
  Extended_of 5 = Extended_of 5 :> Extended Z.
Proof.
  assert (In (op_div_assign (ops := Integral.int16_t))
    (throwing_assignments (ops := Integral.int16_t)))
    as Hin by (cbn; auto).
  split; [exact Hin | split; [reflexivity |]].
  exact (compound_assignment_raise_unchanged (ops := Integral.int16_t)
           _ (Extended_of 5) (Extended_of 0) (Extended_of 5) _ Hin eq_refl).
Defined.

Lemma comparison_strict_total_order_witness :
  wf (Extended_inf (ops := Integral.int16_t) NEG) /\
  wf (Extended_of (-42)) /\
  wf (Extended_inf (ops := Integral.int16_t) POS) /\
  op_le (ops := Integral.int16_t) (Extended_inf NEG) (Extended_inf POS) = true.
Proof.
  assert (wf (Extended_inf (ops := Integral.int16_t) NEG)) as Wa
    by (right; right; reflexivity).
  assert (wf (Extended_of (-42))) as Wb by (left; reflexivity).
  assert (wf (Extended_inf (ops := Integral.int16_t) POS)) as Wc
    by (right; left; reflexivity).
  split; [exact Wa | split; [exact Wb | split; [exact Wc |]]].
  destruct (comparison_strict_total_order (ord := Integral_order (Integral.mk_kind 16 true))
              _ _ _ Wa Wb Wc) as [Trans _].
  exact (Trans eq_refl eq_refl).
Defined.

Lemma division_spec_witness :
  wf (Extended_inf (ops := Integral.int16_t) NEG) /\
  wf (Extended_of (-42)) /\
  op_div (ops := Integral.int16_t) (Extended_inf NEG) (Extended_of (-42))
    = Return (Extended_inf POS).
Proof.
  assert (wf (Extended_inf (ops := Integral.int16_t) NEG)) as Wa
    by (right; right; reflexivity).
  assert (wf (Extended_of (-42))) as Wb by (left; reflexivity).
  split; [exact Wa | split; [exact Wb |]].
  destruct (division_spec (ord := Integral_order (Integral.mk_kind 16 true)) _ _ Wa Wb)
    as (_ & _ & InfFin & _).
  refine (proj2 (InfFin eq_refl eq_refl _)).
  cbn. discriminate.
Defined.

Lemma multiplication_spec_witness :
  wf (Extended_of 0) /\
  wf (Extended_inf (ops := Integral.int16_t) POS) /\
  op_mul (ops := Integral.int16_t) (Extended_of 0) (Extended_inf POS)
    = Return (Extended_of 0).
Proof.
  assert (wf (Extended_of 0)) as Wa by (left; reflexivity).
  assert (wf (Extended_inf (ops := Integral.int16_t) POS)) as Wb
    by (right; left; reflexivity).
  split; [exact Wa | split; [exact Wb |]].
  destruct (multiplication_spec (ord := Integral_order (Integral.mk_kind 16 true)) _ _ Wa Wb)
    as (_ & _ & ZeroInf & _).
  exact (ZeroInf eq_refl eq_refl eq_refl).
Defined.

Lemma increment_infinite_frame_witness :
  finite (Extended_inf (ops := Integral.int16_t) POS) = false /\
  run (op_pre_incr (ops := Integral.int16_t)) (Extended_inf POS)
    = (Return (mk_Extended 1 POS_INF_FLAG), mk_Extended 1 POS_INF_FLAG) /\
  op_insert (ops := Integral.int16_t) "" (mk_Extended 1 POS_INF_FLAG)
    = op_insert (ops := Integral.int16_t) "" (Extended_inf POS).
Proof.
  split; [reflexivity |].
  pose proof (increment_infinite_frame (ops := Integral.int16_t)
                (Extended_inf POS) eq_refl) as F.
  cbv zeta in F. destruct F as (Pre & _ & _ & _ & Obs).
  split; [exact Pre |].
  destruct (Obs (Extended_of 0) "") as [Up _].
  exact (f_equal snd Up).
Defined.

(** * Further properties of the class *)

(** Replaces a flag by the shapes on which every flag test computes. *)
Ltac flag_shapes f := destruct f as [| [? | ? |] | [? | ? |]].

(** Runs through the members of a literal list of assignments. *)
Ltac each_assignment Hin :=
  unfold assignments, throwing_assignments in Hin; cbn [In] in Hin;
  repeat match type of Hin with
         | _ \/ _ => destruct Hin as [<- | Hin]
         end; try contradiction.

Section Further.
Context {T : Type} {ops : Arithmetic T}.

(** X1: the flag of every value the class hands out is one of the three
    constants: the constructors establish it, and the assignments, the
    unary operators, increment and decrement, the ten compound
    assignments (whether they return or throw), the binary operators and
    extraction keep it. *)
Theorem flag_invariant (this other : Extended T) (number : T)
    (inf_type : INF) (is_ : istream) :
  wf this -> wf other ->
  Forall wf
    [Extended_default; Extended_of number; Extended_inf inf_type;
     snd (run (op_assign number) this);
     snd (run (op_assign_inf inf_type) this);
     op_pos this; op_neg this;
     snd (run op_pre_incr this); snd (run op_post_incr this);
     snd (run op_pre_decr this); snd (run op_post_decr this);
     snd (op_extract is_ this)] /\
  (forall assign, In assign assignments ->
     wf (snd (run (assign other) this)) /\
     forall r, symmetric assign this other = Return r -> wf r) /\
  (forall r this', run op_not this = (Return r, this') -> wf r /\ wf this').
Proof.
  intros W W'. split; [| split].
  - pose proof (wf_assign number inf_type this) as [? ?].
    pose proof (wf_increment this W) as (? & ? & ? & ?).
    repeat first [apply Forall_nil | apply Forall_cons];
      first [ assumption | exact W | apply wf_Extended_default
            | apply wf_Extended_of | apply wf_Extended_inf
            | apply wf_op_neg; assumption | apply wf_op_extract ].
  - intros assign Hin.
    assert (wf (snd (run (assign other) this))) as Wr.
    { pose proof (wf_arithmetic this other W W') as (? & ? & ? & ?).
      pose proof (wf_finite_only this other W) as (? & ? & ? & ? & ? & ?).
      each_assignment Hin; assumption. }
    split; [exact Wr |].
    intros r. unfold symmetric, bind, this_, run in *.
    destruct (assign other this) as [[[] | e |] s']; cbn in *; intros E;
      inversion E; subst; assumption.
  - intros r this' E. destruct (wf_op_not this r this' W E) as [Wr ->].
    split; assumption.
Qed.

(** X2: on well-formed operands no compound assignment throws the
    internal error of the [default:] branches. *)
Theorem internal_error_unreachable
    (assign : Extended T -> method (Extended T) unit)
    (a b a' : Extended T) (e : infinite_error) :
  wf a -> wf b -> In assign assignments ->
  run (assign b) a = (Raise e, a') ->
  what e <> "Internal error: invalid infinite flag.".
Proof.
  intros Wa Wb Hin.
  wf_shapes a; wf_shapes b; each_assignment Hin;
    unfold_method; cbn; split_tests; intros E; inversion E; cbn; discriminate.
Qed.

(** X3: a compound assignment never looks at the payload of an
    infinity: on operands that are the same extended numbers it returns
    or throws alike and leaves the same extended number in the receiver. *)
Theorem assignment_representation_independent
    (assign : Extended T -> method (Extended T) unit)
    (a a' b b' : Extended T) :
  same a a' -> same b b' -> In assign assignments ->
  fst (run (assign b) a) = fst (run (assign b') a') /\
  same (snd (run (assign b) a)) (snd (run (assign b') a')).
Proof.
  destruct a as [va fa], a' as [va' fa'], b as [vb fb], b' as [vb' fb'].
  unfold same, finite; cbn [m_flag m_value].
  intros [<- Va] [<- Vb] Hin.
  flag_shapes fa; flag_shapes fb; cbn in Va, Vb;
    try specialize (Va eq_refl); try specialize (Vb eq_refl); subst;
    each_assignment Hin;
    unfold_method; cbn; split_tests; cbn;
    repeat split; intros; try discriminate; reflexivity.
Qed.

(** X4: the payload of an infinity is out of reach of the readers too:
    [finite], the six comparisons, [bool], [value], [infinite_type],
    unary minus, [~] and insertion give the same result on the same
    extended numbers, and increment and decrement keep them the same. *)
Theorem reader_representation_independent (a a' b b' : Extended T) :
  same a a' -> same b b' ->
  finite a = finite a' /\
  [op_eq a b; op_ne a b; op_lt a b; op_gt a b; op_le a b; op_ge a b] =
  [op_eq a' b'; op_ne a' b'; op_lt a' b'; op_gt a' b'; op_le a' b'; op_ge a' b'] /\
  op_bool a = op_bool a' /\
  fst (run value a) = fst (run value a') /\
  fst (run infinite_type a) = fst (run infinite_type a') /\
  op_neg a = op_neg a' /\
  fst (run op_not a) = fst (run op_not a') /\
  (forall os, op_insert os a = op_insert os a') /\
  same (snd (run op_pre_incr a)) (snd (run op_pre_incr a')) /\
  same (snd (run op_post_incr a)) (snd (run op_post_incr a')) /\
  same (snd (run op_pre_decr a)) (snd (run op_pre_decr a')) /\
  same (snd (run op_post_decr a)) (snd (run op_post_decr a')).
Proof.
  destruct a as [va fa], a' as [va' fa'], b as [vb fb], b' as [vb' fb'].
  unfold same, finite; cbn [m_flag m_value].
  intros [<- Va] [<- Vb].
  flag_shapes fa; flag_shapes fb; cbn in Va, Vb;
    try specialize (Va eq_refl); try specialize (Vb eq_refl); subst;
    unfold op_ne, op_gt, op_le, op_ge, op_eq, op_lt, op_bool, op_neg,
      op_insert;
    unfold_method; cbn;
    repeat split; intros; try discriminate; reflexivity.
Qed.

(** X8: the conversion to [bool] is the comparison [!=] with the
    default-constructed zero, for every value. *)
Theorem bool_is_nonzero (a : Extended T) :
  op_bool a = op_ne a Extended_default.
Proof.
  destruct a as [va fa]. unfold op_bool, op_ne, op_eq, finite, Extended_default.
  cbn [m_flag m_value]. flag_shapes fa; reflexivity.
Qed.

(** ** benchmark.cpp: the sanity check *)

Lemma accumulate_extend (plus : T -> T -> T)
    (op : Extended T -> Extended T -> outcome (Extended T)) :
  (forall x y, op (Extended_of x) (Extended_of y) = Return (Extended_of (plus x y))) ->
  forall (l : list T) (init : T),
    accumulate op (extend l) (Extended_of init) =
    Return (Extended_of (fold_left plus l init)).
Proof.
  intros Hop l. induction l as [| x l IH]; intros init; cbn.
  - reflexivity.
  - rewrite Hop. apply IH.
Qed.

(** X9: on a vector of primitives turned into extended numbers by
    [extend], [operate] never throws and returns the Finite values whose
    payloads are the sum and the product [operate] computes on the
    primitives themselves, so that the two comparisons of [main] through
    [value()] are between equal payloads. *)
Theorem operate_extend_agrees (numbers : list T) :
  operate_primitive numbers =
    Return (fold_left prim_add numbers zero, fold_left prim_mul numbers one) /\
  operate_extended (extend numbers) =
    Return (Extended_of (fold_left prim_add numbers zero),
            Extended_of (fold_left prim_mul numbers one)) /\
  forall sum prod ext_sum ext_prod,
    operate_primitive numbers = Return (sum, prod) ->
    operate_extended (extend numbers) = Return (ext_sum, ext_prod) ->
    fst (run value ext_sum) = Return sum /\
    fst (run value ext_prod) = Return prod.
Proof.
  assert (forall (plus : T -> T -> T) (l : list T) (init : T),
             accumulate (fun x y => Return (plus x y)) l init =
             Return (fold_left plus l init)) as Prim.
  { intros plus l. induction l as [| x l IH]; intros init; cbn; auto. }
  assert (operate_primitive numbers =
            Return (fold_left prim_add numbers zero, fold_left prim_mul numbers one))
    as P by (unfold operate_primitive, operate; rewrite !Prim; reflexivity).
  assert (operate_extended (extend numbers) =
            Return (Extended_of (fold_left prim_add numbers zero),
                    Extended_of (fold_left prim_mul numbers one))) as E.
  { unfold operate_extended, operate.
    rewrite (accumulate_extend prim_add op_add) by reflexivity.
    rewrite (accumulate_extend prim_mul op_mul) by reflexivity.
    reflexivity. }
  split; [exact P | split; [exact E |]].
  intros sum prod ext_sum ext_prod P' E'.
  rewrite P in P'. rewrite E in E'. inversion P'. inversion E'. subst.
  split; reflexivity.
Qed.

Section FurtherOrdered.
Context {ord : ArithmeticOrder T}.

(** X5: [==] holds exactly between two representations of the same
    extended number (equal flags, and equal payloads when finite); it is
    reflexive, symmetric and transitive. *)
Theorem equality_is_sameness (a b c : Extended T) :
  (op_eq a b = true <-> same a b) /\
  op_eq a a = true /\
  op_eq a b = op_eq b a /\
  (op_eq a b = true -> op_eq b c = true -> op_eq a c = true).
Proof.
  assert (forall x y : Extended T, op_eq x y = true <-> same x y) as Spec.
  { intros [vx fx] [vy fy]. unfold op_eq, same, finite. cbn [m_flag m_value].
    destruct (fx =? FINITE_FLAG) eqn:Fx, (fy =? FINITE_FLAG) eqn:Fy;
      cbn [andb]; rewrite ?Z.eqb_eq in *; rewrite ?Z.eqb_neq in *.
    - rewrite prim_eqb_eq. subst. intuition.
    - split; [intros E; split; [exact E | intros; congruence] | intros [E _]; exact E].
    - split; [intros E; split; [exact E | intros; congruence] | intros [E _]; exact E].
    - split; [intros E; split; [exact E | intros; congruence] | intros [E _]; exact E]. }
  assert (forall x y : Extended T, same x y -> same y x) as Sym.
  { intros [vx fx] [vy fy]. unfold same, finite. cbn. intros [<- V].
    split; [reflexivity |]. intros F. symmetry. auto. }
  split; [apply Spec | split; [| split]].
  - apply Spec. split; auto.
  - destruct (op_eq a b) eqn:E, (op_eq b a) eqn:E'; try reflexivity.
    + apply Spec, Sym, Spec in E. congruence.
    + apply Spec, Sym, Spec in E'. congruence.
  - rewrite !Spec. destruct a, b, c. unfold same, finite. cbn.
    intros [<- V] [<- V']. split; [reflexivity |].
    intros F. rewrite V by exact F. auto.
Qed.

(** X6: on well-formed values [<] is irreflexive, asymmetric and
    transitive. *)
Theorem less_than_strict_order (a b c : Extended T) :
  wf a -> wf b -> wf c ->
  op_lt a a = false /\
  (op_lt a b = true -> op_lt b a = false) /\
  (op_lt a b = true -> op_lt b c = true -> op_lt a c = true).
Proof.
  intros Wa Wb Wc.
  wf_shapes a; wf_shapes b; wf_shapes c; unfold op_lt, finite; cbn;
    repeat split; intros; try discriminate; try reflexivity;
    auto using prim_ltb_irrefl, prim_ltb_asym.
  all: eapply prim_ltb_trans; eassumption.
Qed.

(** X7: on well-formed values the derived comparisons decompose as
    usual: [<=] is [<] or [==], [>=] is [>] or [==], [!=] is [<] or [>];
    any two values are comparable by [<=], and [<=] both ways means
    [==]. *)
Theorem derived_comparisons (a b : Extended T) :
  wf a -> wf b ->
  op_le a b = op_lt a b || op_eq a b /\
  op_ge a b = op_gt a b || op_eq a b /\
  op_ne a b = op_lt a b || op_gt a b /\
  op_le a b || op_le b a = true /\
  (op_le a b = true -> op_le b a = true -> op_eq a b = true).
Proof.
  intros Wa Wb.
  wf_shapes a; wf_shapes b;
    unfold op_le, op_ge, op_ne, op_gt, op_lt, op_eq, finite; cbn;
    try (repeat split; intros; try discriminate; reflexivity).
  match goal with
  | |- context [prim_ltb ?x ?y] =>
      destruct (prim_trichotomy x y) as [(L & E & G) | [(L & E & G) | (L & E & G)]];
      rewrite L, E, G
  end; cbn; repeat split; intros; try discriminate; reflexivity.
Qed.

(** Decides the tests of every payload against zero. *)
Ltac payload_signs :=
  repeat match goal with
         | |- context [prim_ltb ?x zero] =>
             let L := fresh "L" in
             let E := fresh "E" in
             let G := fresh "G" in
             destruct (prim_trichotomy x zero)
               as [(L & E & G) | [(L & E & G) | (L & E & G)]];
             rewrite ?L, ?E, ?G; cbn
         end.

(** X10: where the primitive [+] commutes, so does [+] on well-formed
    extended numbers: [a + b] and [b + a] both throw, or both return
    and the results compare equal. *)
Theorem addition_commutative (a b : Extended T) :
  wf a -> wf b ->
  (forall x y : T, prim_add x y = prim_add y x) ->
  agree (op_add a b) (op_add b a) = true.
Proof.
  intros Wa Wb Comm.
  wf_shapes a; wf_shapes b; unfold agree, op_add, op_eq; unfold_method; cbn;
    try reflexivity.
  rewrite (Comm _ _). apply prim_eqb_refl.
Qed.

(** X11: where the primitive [*] commutes, so does [*] on well-formed
    extended numbers, the multiplication of zero with an infinity
    included. *)
Theorem multiplication_commutative (a b : Extended T) :
  wf a -> wf b ->
  (forall x y : T, prim_mul x y = prim_mul y x) ->
  agree (op_mul a b) (op_mul b a) = true.
Proof.
  intros Wa Wb Comm.
  wf_shapes a; wf_shapes b; unfold agree, op_mul, op_eq; unfold_method; cbn;
    try reflexivity; payload_signs; try reflexivity; try assumption.
  - rewrite (Comm _ _). apply prim_eqb_refl.
  - apply prim_eqb_eq. symmetry. apply prim_eqb_eq. assumption.
  - apply prim_eqb_eq. symmetry. apply prim_eqb_eq. assumption.
Qed.

(** X12: where the primitive [+] is associative, so is [+] on
    well-formed extended numbers: [(a + b) + c] and [a + (b + c)] both
    throw, or both return and the results compare equal. *)
Theorem addition_associative (a b c : Extended T) :
  wf a -> wf b -> wf c ->
  (forall x y z : T, prim_add (prim_add x y) z = prim_add x (prim_add y z)) ->
  agree (and_then (op_add a b) (fun ab => op_add ab c))
        (and_then (op_add b c) (fun bc => op_add a bc)) = true.
Proof.
  intros Wa Wb Wc Assoc.
  wf_shapes a; wf_shapes b; wf_shapes c;
    unfold agree, and_then, op_add, op_eq; unfold_method; cbn;
    try reflexivity.
  rewrite (Assoc _ _ _). apply prim_eqb_refl.
Qed.

(** X13: where the primitive [x - y] is [x + (-y)], subtraction of
    well-formed extended numbers is addition of the negated right
    operand, indeterminate forms included ([T] signed, as unary minus
    requires). *)
Theorem subtraction_adds_negation (a b : Extended T) :
  wf a -> wf b ->
  (forall x y : T, prim_sub x y = prim_add x (prim_neg y)) ->
  agree (op_sub a b) (op_add a (op_neg b)) = true.
Proof.
  intros Wa Wb Sub.
  wf_shapes a; wf_shapes b;
    unfold agree, op_sub, op_add, op_neg, op_eq; unfold_method; cbn;
    try reflexivity.
  rewrite (Sub _ _). apply prim_eqb_refl.
Qed.

(** X14: unary minus negates the flag of a well-formed value, and
    applied twice it gives back a value that compares equal, provided
    the primitive negation is undone by itself on a Finite payload. *)
Theorem negation_involutive (a : Extended T) :
  wf a ->
  (finite a = true -> prim_neg (prim_neg (m_value a)) = m_value a) ->
  m_flag (op_neg a) = - m_flag a /\
  op_eq (op_neg (op_neg a)) a = true.
Proof.
  intros Wa Inv.
  wf_shapes a; unfold op_neg, op_eq, finite in *; cbn in *;
    split; try reflexivity.
  rewrite (Inv eq_refl). apply prim_eqb_refl.
Qed.

End FurtherOrdered.

(** X15: increment is the addition of one and decrement its
    subtraction, as extended numbers: [x += Extended(1)] never throws
    on a well-formed [x] and leaves the receiver that [++x] and [x++]
    leave, up to the payload of an infinity. *)
Theorem increment_adds_one (a : Extended T) :
  wf a ->
  (exists r, run (op_add_assign (Extended_of one)) a = (Return tt, r) /\
             same (snd (run op_pre_incr a)) r /\
             same (snd (run op_post_incr a)) r) /\
  (exists r, run (op_sub_assign (Extended_of one)) a = (Return tt, r) /\
             same (snd (run op_pre_decr a)) r /\
             same (snd (run op_post_decr a)) r).
Proof.
  intros Wa.
  wf_shapes a; unfold same; unfold_method; cbn;
    split; eexists; repeat split; intros; try discriminate; reflexivity.
Qed.

(** X16: summing a vector of well-formed values with [accumulate]
    throws exactly when the initial value and the vector together hold
    both infinities, whatever their order; with one infinity only the
    sum is that infinity, and with none it is the Finite value of the
    primitive sum. *)
Theorem accumulate_sum_classified (numbers : list (Extended T))
    (init : Extended T) :
  wf init -> Forall wf numbers ->
  match has_flag POS_INF_FLAG (init :: numbers),
        has_flag NEG_INF_FLAG (init :: numbers) with
  | true, true => exists e, accumulate op_add numbers init = Raise e
  | true, false =>
      exists r, accumulate op_add numbers init = Return r /\
                m_flag r = POS_INF_FLAG
  | false, true =>
      exists r, accumulate op_add numbers init = Return r /\
                m_flag r = NEG_INF_FLAG
  | false, false =>
      accumulate op_add numbers init =
      Return (Extended_of (fold_left prim_add (map m_value numbers) (m_value init)))
  end.
Proof.
  intros Wi Wn. revert init Wi.
  induction Wn as [| x l Wx Wl IH]; intros init Wi.
  - wf_shapes init; unfold has_flag; cbn; try reflexivity;
      eexists; split; reflexivity.
  - unfold has_flag in *. cbn [accumulate].
    wf_shapes init; wf_shapes x; unfold op_add; unfold_method; cbn;
      try (eexists; reflexivity);
      match goal with
      | |- context [accumulate _ l ?i] =>
          let W := fresh "W" in
          assert (wf i) as W
            by (first [left; reflexivity | right; left; reflexivity
                      | right; right; reflexivity]);
          specialize (IH i W); cbn in IH; exact IH
      end.
Qed.


End Further.

(** ** Conversion between instantiations *)

Section Conversion.
Context {T S : Type} {ops : Arithmetic T} {ops' : Arithmetic S}.
Context {to : Cast T S} {back : Cast S T} {ord : ArithmeticOrder T}.

(** X18: [as_type] keeps the flag of a well-formed value, casts the
    payload of a Finite one and drops the payload of an infinity; going
    to [S] and back gives a value that compares equal, provided the two
    casts undo each other on a Finite payload. *)
Theorem as_type_round_trip (a : Extended T) :
  wf a ->
  (finite a = true -> prim_cast (prim_cast (m_value a) : S) = m_value a) ->
  m_flag (as_type (S := S) a) = m_flag a /\
  (finite a = true -> as_type (S := S) a = Extended_of (prim_cast (m_value a))) /\
  (finite a = false ->
   as_type (S := S) a = mk_Extended zero (m_flag a)) /\
  op_eq (as_type (S := T) (as_type (S := S) a)) a = true.
Proof.
  intros Wa Inv.
  wf_shapes a; unfold as_type, op_eq, finite in *; cbn in *;
    repeat split; intros; try discriminate; try reflexivity.
  rewrite (Inv eq_refl). apply prim_eqb_refl.
Qed.

End Conversion.

(** ** The integer instantiations satisfy the primitive laws *)

Lemma Integral_wrap_add_l (k : Integral.kind) (x y : Z) :
  Integral.wrap k (Integral.wrap k x + y) = Integral.wrap k (x + y).
Proof.
  unfold Integral.wrap. f_equal.
  replace ((x - Integral.min_value k) mod 2 ^ Integral.bits k
           + Integral.min_value k + y - Integral.min_value k)
    with ((x - Integral.min_value k) mod 2 ^ Integral.bits k + y) by ring.
  rewrite Zplus_mod_idemp_l. f_equal. ring.
Qed.

Lemma Integral_wrap_add_r (k : Integral.kind) (x y : Z) :
  Integral.wrap k (x + Integral.wrap k y) = Integral.wrap k (x + y).
Proof.
  rewrite Z.add_comm, Integral_wrap_add_l. f_equal. apply Z.add_comm.
Qed.

Lemma Integral_add_comm (k : Integral.kind) (x y : Z) :
  prim_add (Arithmetic := Integral.arithmetic k) x y =
  prim_add (Arithmetic := Integral.arithmetic k) y x.
Proof. cbn. f_equal. apply Z.add_comm. Qed.

Lemma Integral_mul_comm (k : Integral.kind) (x y : Z) :
  prim_mul (Arithmetic := Integral.arithmetic k) x y =
  prim_mul (Arithmetic := Integral.arithmetic k) y x.
Proof. cbn. f_equal. apply Z.mul_comm. Qed.

Lemma Integral_add_assoc (k : Integral.kind) (x y z : Z) :
  prim_add (Arithmetic := Integral.arithmetic k)
    (prim_add (Arithmetic := Integral.arithmetic k) x y) z =
  prim_add (Arithmetic := Integral.arithmetic k) x
    (prim_add (Arithmetic := Integral.arithmetic k) y z).
Proof.
  cbn. rewrite Integral_wrap_add_l, Integral_wrap_add_r. f_equal.
  symmetry. apply Z.add_assoc.
Qed.

Lemma Integral_sub_neg (k : Integral.kind) (x y : Z) :
  prim_sub (Arithmetic := Integral.arithmetic k) x y =
  prim_add (Arithmetic := Integral.arithmetic k) x
    (prim_neg (Arithmetic := Integral.arithmetic k) y).
Proof. cbn. rewrite Integral_wrap_add_r. reflexivity. Qed.

(** ** The further properties at concrete values *)

Lemma flag_invariant_witness :
  wf (Extended_of 1) /\ wf (Extended_inf (ops := Integral.int16_t) NEG) /\
  wf (snd (run (op_sub_assign (ops := Integral.int16_t) (Extended_inf NEG))
             (Extended_of 1))).
Proof.
  assert (wf (Extended_of 1)) as Wa by (left; reflexivity).
  assert (wf (Extended_inf (ops := Integral.int16_t) NEG)) as Wb
    by (right; right; reflexivity).
  assert (In (op_sub_assign (ops := Integral.int16_t))
            (assignments (ops := Integral.int16_t))) as Hin by (cbn; auto).
  split; [exact Wa | split; [exact Wb |]].
  exact (proj1 (proj1 (proj2 (flag_invariant (ops := Integral.int16_t)
           (Extended_of 1) (Extended_inf NEG) 2 POS (mk_istream "7" false)
           Wa Wb)) _ Hin)).
Defined.

Lemma internal_error_unreachable_witness :
  wf (Extended_inf (ops := Integral.int16_t) POS) /\
  wf (Extended_inf (ops := Integral.int16_t) NEG) /\
  run (op_add_assign (ops := Integral.int16_t) (Extended_inf NEG)) (Extended_inf POS)
    = (Raise (mk_infinite_error "Indeterminate form: +inf + -inf"), Extended_inf POS) /\
  what (mk_infinite_error "Indeterminate form: +inf + -inf")
    <> "Internal error: invalid infinite flag.".
Proof.
  assert (wf (Extended_inf (ops := Integral.int16_t) POS)) as Wa
    by (right; left; reflexivity).
  assert (wf (Extended_inf (ops := Integral.int16_t) NEG)) as Wb
    by (right; right; reflexivity).
  assert (In (op_add_assign (ops := Integral.int16_t))
            (assignments (ops := Integral.int16_t))) as Hin by (cbn; auto).
  split; [exact Wa | split; [exact Wb | split; [reflexivity |]]].
  exact (internal_error_unreachable (ops := Integral.int16_t)
           _ _ _ _ _ Wa Wb Hin eq_refl).
Defined.

Lemma assignment_representation_independent_witness :
  same (mk_Extended 7 POS_INF_FLAG) (mk_Extended 0 POS_INF_FLAG) /\
  same (Extended_of 0) (Extended_of 0) /\
  fst (run (op_mul_assign (ops := Integral.int16_t) (Extended_of 0))
         (mk_Extended 7 POS_INF_FLAG)) =
  fst (run (op_mul_assign (ops := Integral.int16_t) (Extended_of 0))
         (mk_Extended 0 POS_INF_FLAG)) /\
  same (snd (run (op_mul_assign (ops := Integral.int16_t) (Extended_of 0))
               (mk_Extended 7 POS_INF_FLAG)))
       (snd (run (op_mul_assign (ops := Integral.int16_t) (Extended_of 0))
               (mk_Extended 0 POS_INF_FLAG))).
Proof.
  assert (same (mk_Extended 7 POS_INF_FLAG) (mk_Extended 0 POS_INF_FLAG)) as Sa
    by (split; [reflexivity | intros F; discriminate F]).
  assert (same (Extended_of 0) (Extended_of 0)) as Sb
    by (split; [reflexivity | intros F; reflexivity]).
  assert (In (op_mul_assign (ops := Integral.int16_t))
            (assignments (ops := Integral.int16_t))) as Hin by (cbn; auto).
  split; [exact Sa | split; [exact Sb |]].
  exact (assignment_representation_independent (ops := Integral.int16_t)
           _ _ _ _ _ Sa Sb Hin).
Defined.

Lemma reader_representation_independent_witness :
  same (mk_Extended 7 NEG_INF_FLAG) (mk_Extended 0 NEG_INF_FLAG) /\
  same (Extended_of 5) (Extended_of 5) /\
  op_neg (ops := Integral.int16_t) (mk_Extended 7 NEG_INF_FLAG) =
  op_neg (ops := Integral.int16_t) (mk_Extended 0 NEG_INF_FLAG).
Proof.
  assert (same (mk_Extended 7 NEG_INF_FLAG) (mk_Extended 0 NEG_INF_FLAG)) as Sa
    by (split; [reflexivity | intros F; discriminate F]).
  assert (same (Extended_of 5) (Extended_of 5)) as Sb
    by (split; [reflexivity | intros F; reflexivity]).
  split; [exact Sa | split; [exact Sb |]].
  destruct (reader_representation_independent (ops := Integral.int16_t)
              _ _ _ _ Sa Sb) as (_ & _ & _ & _ & _ & Neg & _).
  exact Neg.
Defined.

Lemma equality_is_sameness_witness :
  op_eq (ops := Integral.int16_t) (Extended_inf POS) (mk_Extended 9 POS_INF_FLAG)
    = true <->
  same (Extended_inf (ops := Integral.int16_t) POS) (mk_Extended 9 POS_INF_FLAG).
Proof.
  exact (proj1 (equality_is_sameness
                  (ord := Integral_order (Integral.mk_kind 16 true))
                  (Extended_inf POS) (mk_Extended 9 POS_INF_FLAG)
                  (Extended_of 0))).
Defined.

Lemma less_than_strict_order_witness :
  wf (Extended_inf (ops := Integral.int16_t) NEG) /\ wf (Extended_of 0) /\
  wf (Extended_inf (ops := Integral.int16_t) POS) /\
  op_lt (ops := Integral.int16_t) (Extended_inf NEG) (Extended_inf POS) = true.
Proof.
  assert (wf (Extended_inf (ops := Integral.int16_t) NEG)) as Wa
    by (right; right; reflexivity).
  assert (wf (Extended_of 0)) as Wb by (left; reflexivity).
  assert (wf (Extended_inf (ops := Integral.int16_t) POS)) as Wc
    by (right; left; reflexivity).
  split; [exact Wa | split; [exact Wb | split; [exact Wc |]]].
  exact (proj2 (proj2 (less_than_strict_order
                  (ord := Integral_order (Integral.mk_kind 16 true))
                  _ _ _ Wa Wb Wc)) eq_refl eq_refl).
Defined.

Lemma derived_comparisons_witness :
  wf (Extended_of 3) /\ wf (Extended_inf (ops := Integral.int16_t) POS) /\
  op_le (ops := Integral.int16_t) (Extended_of 3) (Extended_inf POS) =
  op_lt (ops := Integral.int16_t) (Extended_of 3) (Extended_inf POS)
  || op_eq (ops := Integral.int16_t) (Extended_of 3) (Extended_inf POS).
Proof.
  assert (wf (Extended_of 3)) as Wa by (left; reflexivity).
  assert (wf (Extended_inf (ops := Integral.int16_t) POS)) as Wb
    by (right; left; reflexivity).
  split; [exact Wa | split; [exact Wb |]].
  exact (proj1 (derived_comparisons
                  (ord := Integral_order (Integral.mk_kind 16 true))
                  _ _ Wa Wb)).
Defined.

Lemma addition_commutative_witness :
  wf (Extended_of 40) /\ wf (Extended_inf (ops := Integral.int16_t) POS) /\
  agree (op_add (ops := Integral.int16_t) (Extended_of 40) (Extended_inf POS))
        (op_add (ops := Integral.int16_t) (Extended_inf POS) (Extended_of 40))
    = true.
Proof.
  assert (wf (Extended_of 40)) as Wa by (left; reflexivity).
  assert (wf (Extended_inf (ops := Integral.int16_t) POS)) as Wb
    by (right; left; reflexivity).
  split; [exact Wa | split; [exact Wb |]].
  exact (addition_commutative
           (ord := Integral_order (Integral.mk_kind 16 true))
           _ _ Wa Wb (Integral_add_comm (Integral.mk_kind 16 true))).
Defined.

Lemma multiplication_commutative_witness :
  wf (Extended_of 0) /\ wf (Extended_inf (ops := Integral.int16_t) NEG) /\
  agree (op_mul (ops := Integral.int16_t) (Extended_of 0) (Extended_inf NEG))
        (op_mul (ops := Integral.int16_t) (Extended_inf NEG) (Extended_of 0))
    = true.
Proof.
  assert (wf (Extended_of 0)) as Wa by (left; reflexivity).
  assert (wf (Extended_inf (ops := Integral.int16_t) NEG)) as Wb
    by (right; right; reflexivity).
  split; [exact Wa | split; [exact Wb |]].
  exact (multiplication_commutative
           (ord := Integral_order (Integral.mk_kind 16 true))
           _ _ Wa Wb (Integral_mul_comm (Integral.mk_kind 16 true))).
Defined.

Lemma addition_associative_witness :
  wf (Extended_of 1) /\ wf (Extended_of 2) /\
  wf (Extended_inf (ops := Integral.int16_t) NEG) /\
  agree (and_then (op_add (ops := Integral.int16_t) (Extended_of 1) (Extended_of 2))
           (fun ab => op_add ab (Extended_inf NEG)))
        (and_then (op_add (ops := Integral.int16_t) (Extended_of 2) (Extended_inf NEG))
           (fun bc => op_add (Extended_of 1) bc))
    = true.
Proof.
  assert (wf (Extended_of 1)) as Wa by (left; reflexivity).
  assert (wf (Extended_of 2)) as Wb by (left; reflexivity).
  assert (wf (Extended_inf (ops := Integral.int16_t) NEG)) as Wc
    by (right; right; reflexivity).
  split; [exact Wa | split; [exact Wb | split; [exact Wc |]]].
  exact (addition_associative
           (ord := Integral_order (Integral.mk_kind 16 true))
           _ _ _ Wa Wb Wc (Integral_add_assoc (Integral.mk_kind 16 true))).
Defined.

Lemma subtraction_adds_negation_witness :
  wf (Extended_of 5) /\ wf (Extended_inf (ops := Integral.int16_t) POS) /\
  agree (op_sub (ops := Integral.int16_t) (Extended_of 5) (Extended_inf POS))
        (op_add (ops := Integral.int16_t) (Extended_of 5)
           (op_neg (Extended_inf POS)))
    = true.
Proof.
  assert (wf (Extended_of 5)) as Wa by (left; reflexivity).
  assert (wf (Extended_inf (ops := Integral.int16_t) POS)) as Wb
    by (right; left; reflexivity).
  split; [exact Wa | split; [exact Wb |]].
  exact (subtraction_adds_negation
           (ord := Integral_order (Integral.mk_kind 16 true))
           _ _ Wa Wb (Integral_sub_neg (Integral.mk_kind 16 true))).
Defined.

Lemma negation_involutive_witness :
  wf (Extended_of (-42)) /\
  op_eq (ops := Integral.int16_t)
    (op_neg (op_neg (Extended_of (-42)))) (Extended_of (-42)) = true.
Proof.
  assert (wf (Extended_of (-42))) as Wa by (left; reflexivity).
  split; [exact Wa |].
  exact (proj2 (negation_involutive
                  (ord := Integral_order (Integral.mk_kind 16 true))
                  (Extended_of (-42)) Wa (fun _ => eq_refl))).
Defined.

Lemma increment_adds_one_witness :
  wf (Extended_of 41) /\
  exists r,
    run (op_add_assign (ops := Integral.int16_t) (Extended_of one)) (Extended_of 41)
      = (Return tt, r) /\
    same (snd (run (op_pre_incr (ops := Integral.int16_t)) (Extended_of 41))) r /\
    same (snd (run (op_post_incr (ops := Integral.int16_t)) (Extended_of 41))) r.
Proof.
  assert (wf (Extended_of 41)) as Wa by (left; reflexivity).
  split; [exact Wa |].
  exact (proj1 (increment_adds_one (ops := Integral.int16_t) _ Wa)).
Defined.

Lemma accumulate_sum_classified_witness :
  wf (Extended_of 0) /\
  Forall wf [Extended_of 1; Extended_inf (ops := Integral.int16_t) POS; Extended_of 2] /\
  exists r,
    accumulate (op_add (ops := Integral.int16_t))
      [Extended_of 1; Extended_inf POS; Extended_of 2] (Extended_of 0) = Return r /\
    m_flag r = POS_INF_FLAG.
Proof.
  assert (wf (Extended_of 0)) as Wi by (left; reflexivity).
  assert (Forall wf [Extended_of 1; Extended_inf (ops := Integral.int16_t) POS;
                     Extended_of 2]) as Wn.
  { repeat first [apply Forall_nil | apply Forall_cons];
      first [left; reflexivity | right; left; reflexivity]. }
  split; [exact Wi | split; [exact Wn |]].
  exact (accumulate_sum_classified (ops := Integral.int16_t) _ _ Wi Wn).
Defined.


Lemma as_type_round_trip_witness :
  wf (Extended_of 3) /\
  op_eq (ops := Integral.int16_t)
    (as_type (ops := Integral.int64_t) (ops' := Integral.int16_t)
       (cast := Integral_cast (Integral.mk_kind 16 true))
       (as_type (ops := Integral.int16_t) (ops' := Integral.int64_t)
          (cast := Integral_cast (Integral.mk_kind 64 true)) (Extended_of 3)))
    (Extended_of 3) = true.
Proof.
  assert (wf (Extended_of 3)) as Wa by (left; reflexivity).
  split; [exact Wa |].
  exact (proj2 (proj2 (proj2 (as_type_round_trip
           (ops := Integral.int16_t) (ops' := Integral.int64_t)
           (to := Integral_cast (Integral.mk_kind 64 true))
           (back := Integral_cast (Integral.mk_kind 16 true))
           (ord := Integral_order (Integral.mk_kind 16 true))
           (Extended_of 3) Wa (fun _ => eq_refl))))).
Defined.

(** ** Assignment, neutral elements and zero *)

Section Neutral.
Context {T : Type} {ops : Arithmetic T}.

(** X19: assignment forgets the state the receiver was in: after
    [x = number] the receiver is the Finite value of [number], and after
    [x = inf_type] it is the infinity of that sign as far as any reader
    can tell, though it keeps the payload it had. *)
Theorem assignment_overwrites (this : Extended T) (number : T) (inf_type : INF) :
  snd (run (op_assign number) this) = Extended_of number /\
  same (snd (run (op_assign_inf inf_type) this)) (Extended_inf inf_type) /\
  m_value (snd (run (op_assign_inf inf_type) this)) = m_value this /\
  fst (run infinite_type (snd (run (op_assign_inf inf_type) this)))
    = Return inf_type.
Proof.
  unfold same. unfold_method. unfold Extended_inf.
  destruct inf_type; cbn; repeat split; intros; try discriminate; reflexivity.
Qed.

Context {ord : ArithmeticOrder T}.

(** X20: where zero and one are neutral for the primitive on the payload
    and one is positive, adding or subtracting the Finite zero and
    multiplying or dividing by the Finite one return a value that
    compares equal to the well-formed left operand, infinities
    included. *)
Theorem neutral_elements (a : Extended T) :
  wf a ->
  prim_ltb zero one = true ->
  (finite a = true ->
   prim_add (m_value a) zero = m_value a /\
   prim_sub (m_value a) zero = m_value a /\
   prim_mul (m_value a) one = m_value a /\
   prim_div (m_value a) one = m_value a) ->
  agree (op_add a (Extended_of zero)) (Return a) = true /\
  agree (op_sub a (Extended_of zero)) (Return a) = true /\
  agree (op_mul a (Extended_of one)) (Return a) = true /\
  agree (op_div a (Extended_of one)) (Return a) = true.
Proof.
  intros Wa Pos Neutral.
  pose proof (prim_ltb_asym _ _ Pos) as Neg.
  pose proof (prim_ltb_neq_sym _ _ Pos) as Ne.
  wf_shapes a; unfold agree, op_add, op_sub, op_mul, op_div, op_eq;
    unfold_method; cbn in *; rewrite ?Ne, ?Neg; cbn;
    try (repeat split; reflexivity).
  destruct (Neutral eq_refl) as (-> & -> & -> & ->).
  rewrite prim_eqb_refl. repeat split.
Qed.

(** X21: where the primitive product of the payload with zero is zero,
    the product of a well-formed value with the Finite zero, on either
    side, compares equal to the Finite zero, infinities included. *)
Theorem zero_annihilates (a : Extended T) :
  wf a ->
  (finite a = true ->
   prim_mul (m_value a) zero = zero /\ prim_mul zero (m_value a) = zero) ->
  agree (op_mul a (Extended_of zero)) (Return (Extended_of zero)) = true /\
  agree (op_mul (Extended_of zero) a) (Return (Extended_of zero)) = true.
Proof.
  intros Wa Zero.
  wf_shapes a; unfold agree, op_mul, op_eq; unfold_method; cbn in *;
    rewrite ?prim_eqb_refl, ?prim_ltb_irrefl; cbn;
    rewrite ?prim_eqb_refl; try (split; reflexivity).
  destruct (Zero eq_refl) as (-> & ->).
  rewrite prim_eqb_refl. split; reflexivity.
Qed.

End Neutral.

Lemma neutral_elements_witness :
  wf (Extended_of (-42)) /\
  prim_ltb (Arithmetic := Integral.int16_t) zero one = true /\
  (prim_add (Arithmetic := Integral.int16_t) (-42) zero = -42 /\
   prim_sub (Arithmetic := Integral.int16_t) (-42) zero = -42 /\
   prim_mul (Arithmetic := Integral.int16_t) (-42) one = -42 /\
   prim_div (Arithmetic := Integral.int16_t) (-42) one = -42) /\
  agree (op_div (ops := Integral.int16_t) (Extended_of (-42)) (Extended_of one))
        (Return (Extended_of (-42))) = true.
Proof.
  assert (wf (Extended_of (-42))) as Wa by (left; reflexivity).
  assert (prim_add (Arithmetic := Integral.int16_t) (-42) zero = -42 /\
          prim_sub (Arithmetic := Integral.int16_t) (-42) zero = -42 /\
          prim_mul (Arithmetic := Integral.int16_t) (-42) one = -42 /\
          prim_div (Arithmetic := Integral.int16_t) (-42) one = -42) as Neutral
    by (repeat split; reflexivity).
  split; [exact Wa | split; [reflexivity | split; [exact Neutral |]]].
  exact (proj2 (proj2 (proj2 (neutral_elements
           (ord := Integral_order (Integral.mk_kind 16 true))
           (Extended_of (-42)) Wa eq_refl (fun _ => Neutral))))).
Defined.

Lemma zero_annihilates_witness :
  wf (Extended_of 42) /\
  agree (op_mul (ops := Integral.int16_t) (Extended_of 42) (Extended_of zero))
        (Return (Extended_of zero)) = true.
Proof.
  assert (wf (Extended_of 42)) as Wa by (left; reflexivity).
  split; [exact Wa |].
  exact (proj1 (zero_annihilates
                  (ord := Integral_order (Integral.mk_kind 16 true))
                  (Extended_of 42) Wa (fun _ => conj eq_refl eq_refl))).
Defined.
